(** * Calendar bot (Lab4/Bot_Test): dialogue engine and action dispatcher

    A shallow embedding of [schema.py], [config.py], [calendar_client.py],
    [handlers.py], the handler registration of [main.py] and the JSON
    extraction of [llm_client.py], followed by the properties of the
    multi-turn dialogue state machine.

    Python values are modelled as follows.
    - [str] is a [string] holding the UTF-8 encoding of the text.
    - [float] is IEEE-754 binary64, i.e. Rocq's primitive [float].
    - [Optional[T]] is [option T]; a [dict] with a fixed set of possible
      keys is a record of options; the per-user store is a [gmap].
    - Code that raises is modelled in a state-and-exception monad.
    - The standard library ([str.lower], [str.strip], [datetime]), the
      Google Calendar service and the LLM endpoint are interfaces. *)

From Stdlib Require Import PrimFloat ZArith String Ascii List Bool.
From stdpp Require Import base option list gmap strings pretty.
Import ListNotations.

Local Open Scope string_scope.
Local Open Scope list_scope.
Local Open Scope Z_scope.

(** ** Python strings *)

Module PyStr.

(** The line feed written [\n] in the source. *)
Definition NL : string := String (ascii_of_nat 10) EmptyString.

(** [bool(s)] for a [str]. *)
Definition truthy (s : string) : bool := negb (String.eqb s "").

(** [bool(o)] for an [Optional[str]]. *)
Definition truthy_opt (o : option string) : bool :=
  match o with
  | Some s => truthy s
  | None => false
  end.

(** [bool(o)] for an [Optional[List[str]]]. *)
Definition truthy_list {A : Type} (o : option (list A)) : bool :=
  match o with
  | Some (_ :: _) => true
  | _ => false
  end.

(** [needle in hay] for two [str]. *)
Fixpoint contains (needle hay : string) : bool :=
  String.prefix needle hay ||
  match hay with
  | EmptyString => false
  | String _ rest => contains needle rest
  end.

(** [s.replace(c, new)] for a one-character [c]. *)
Fixpoint replace_char (c : ascii) (new s : string) : string :=
  match s with
  | EmptyString => EmptyString
  | String a rest =>
      if Ascii.eqb a c then new +:+ replace_char c new rest
      else String a (replace_char c new rest)
  end.

(** [sep.join(l)]. *)
Definition join (sep : string) (l : list string) : string :=
  String.concat sep l.

(** A UTF-8 continuation byte, [10xxxxxx]. *)
Definition is_continuation (a : ascii) : bool :=
  let n := N_of_ascii a in
  (N.leb 128 n && N.ltb n 192)%N.

(** [s[:n]]: the first [n] code points of [s]. *)
Fixpoint slice_to (n : nat) (s : string) : string :=
  match s with
  | EmptyString => EmptyString
  | String a rest =>
      if is_continuation a then String a (slice_to n rest)
      else match n with
           | O => EmptyString
           | S n' => String a (slice_to n' rest)
           end
  end.

(** [x in l] for a list of [str]. *)
Definition in_list (x : string) (l : list string) : bool :=
  existsb (String.eqb x) l.

(** [str(i)] for a natural number. *)
Definition of_nat (i : nat) : string := pretty i.

(** How an f-string renders an [Optional[str]]. *)
Definition fmt_opt (o : option string) : string :=
  match o with
  | Some s => s
  | None => "None"
  end.

(** [l[i]] for a Python list: negative indices count from the end,
    [None] stands for [IndexError]. *)
Definition index {A : Type} (l : list A) (i : Z) : option A :=
  if i <? 0
  then (if i + Z.of_nat (length l) <? 0 then None
        else l !! Z.to_nat (i + Z.of_nat (length l)))
  else l !! Z.to_nat i.

End PyStr.

(** ** The Python standard library used by the bot

    [str.lower] and [str.strip] are Unicode-aware, and [datetime] parses
    and prints many formats; they are kept abstract.  [None] stands for
    the exception the operation raises. *)

Class PyLib := {
  str_lower : string -> string;
  str_strip : string -> string;
  datetime : Type;
  tzinfo : Type;
  (** [datetime.fromisoformat(s)]; [None] is [ValueError]. *)
  fromisoformat : string -> option datetime;
  (** [datetime.strptime(s, fmt)]; [None] is [ValueError]. *)
  strptime : string -> string -> option datetime;
  (** [dt.strftime(fmt)] *)
  strftime : datetime -> string -> string;
  (** [dt.isoformat()] *)
  isoformat : datetime -> string;
  (** [dt.tzinfo] *)
  dt_tzinfo : datetime -> option tzinfo;
  (** [dt.replace(tzinfo=tz)] *)
  replace_tzinfo : datetime -> tzinfo -> datetime;
  (** [dt + timedelta(minutes=n)]; [None] is [OverflowError]. *)
  add_minutes : datetime -> Z -> option datetime;
  (** [ZoneInfo(name)]; [None] is the exception it raises. *)
  ZoneInfo : string -> option tzinfo;
  (** [ZoneInfo(name)] rejects a malformed key (empty, absolute or not
      normalized) with [ValueError]; any other key that it does not
      find with [ZoneInfoNotFoundError]. *)
  zone_key_malformed : string -> bool;
  (** [datetime.combine(dt.date(), datetime.min.time())] *)
  combine_min : datetime -> datetime;
  (** [datetime.combine(dt.date(), datetime.max.time())] *)
  combine_max : datetime -> datetime;
  (** [dt.replace(hour=h, minute=m, second=s)] *)
  replace_hms : datetime -> Z -> Z -> Z -> datetime
}.

(** ** schema.py *)

Inductive Intent := create | list_ | delete_ | unknown.

#[global] Instance Intent_eq_dec : EqDecision Intent.
Proof. solve_decision. Defined.

Record ClarifyModel := {
  needed : bool;
  questions : list string
}.

Record SlotsModel := {
  title : option string;
  start : option string;
  end_ : option string;
  date : option string;
  participants : option (list string);
  description : option string;
  location : option string;
  event_id : option string
}.

Record LLMResponseModel := {
  intent : Intent;
  confidence : float;
  slots : SlotsModel;
  clarify : ClarifyModel
}.

(** The default-constructed [SlotsModel()]. *)
Definition SlotsModel_default : SlotsModel :=
  {| title := None; start := None; end_ := None; date := None;
     participants := None; description := None; location := None;
     event_id := None |}.

Section Validators.
Context `{PyLib}.

(** [SlotsModel.validate_datetime]: the value is kept when
    [fromisoformat] accepts it, and rejected otherwise. *)
Definition validate_datetime (v : option string) : bool :=
  match v with
  | None => true
  | Some s =>
      match fromisoformat (PyStr.replace_char "Z" "+00:00" s) with
      | Some _ => true
      | None => false
      end
  end.

(** A [SlotsModel] that pydantic accepted. *)
Definition SlotsModel_valid (s : SlotsModel) : Prop :=
  validate_datetime (start s) = true /\ validate_datetime (end_ s) = true.

End Validators.

(** [Field(ge=0.0, le=1.0)] on [confidence]. *)
Definition confidence_valid (c : float) : bool :=
  PrimFloat.leb 0%float c && PrimFloat.leb c 1%float.

(** ** config.py *)

Record Config := {
  LLM_CONFIDENCE_THRESHOLD : float;
  TIMEZONE : string;
  DEFAULT_EVENT_DURATION_MIN : Z
}.

(** The configuration when no environment variable overrides it. *)
Definition Config_default : Config :=
  {| LLM_CONFIDENCE_THRESHOLD := 0x1.999999999999ap-1%float;
     TIMEZONE := "Europe/Moscow";
     DEFAULT_EVENT_DURATION_MIN := 60 |}.

(** ** The Google Calendar service *)

(** The ['start'] and ['end'] sub-objects of an event. *)
Record EventTime := {
  dateTime : option string;
  date_ : option string;
  timeZone : option string
}.

(** An event resource as the API returns it; every key may be absent. *)
Record Event := {
  ev_id : option string;
  ev_summary : option string;
  ev_start : option EventTime;
  ev_end : option EventTime;
  ev_htmlLink : option string
}.

(** The [event_body] that [create_event] sends. *)
Record EventBody := {
  body_summary : string;
  body_start : EventTime;
  body_end : EventTime;
  body_description : option string;
  body_location : option string;
  body_attendees : option (list string)
}.

(** [service.events().insert/list/delete(...).execute()] on the primary
    calendar.  [None] stands for a raised [HttpError]; the result of
    [list] holds the ['items'] key, which may be absent. *)
Class CalendarService := {
  Cal : Type;
  events_insert : Cal -> EventBody -> option Event * Cal;
  events_list : Cal -> string -> string -> option (option (list Event)) * Cal;
  events_delete : Cal -> string -> option unit * Cal
}.

(** [LLMClient.parse_user_message]: every exception is caught inside, the
    result is a validated model or [None]. *)
Class LLMService := {
  LLM : Type;
  parse_user_message : LLM -> string -> option LLMResponseModel * LLM
}.

(** ** The state of the process *)

(** One value of [MessageHandler.clarification_context]. *)
Record ContextData := {
  cd_intent : option Intent;
  cd_slots : option SlotsModel;
  cd_questions : option (list string);
  cd_current_question_index : option Z;
  cd_waiting_confirmation : option bool;
  cd_waiting_delete_confirmation : option bool;
  (** [None] when the key is absent or holds [None]. *)
  cd_event_id : option string
}.

(** The three dict literals of [handlers.py]. *)
Definition awaiting_clarification
    (i : Intent) (s : SlotsModel) (qs : list string) (k : Z) : ContextData :=
  {| cd_intent := Some i; cd_slots := Some s; cd_questions := Some qs;
     cd_current_question_index := Some k; cd_waiting_confirmation := None;
     cd_waiting_delete_confirmation := None; cd_event_id := None |}.

Definition awaiting_confirmation (i : Intent) (s : SlotsModel) : ContextData :=
  {| cd_intent := Some i; cd_slots := Some s; cd_questions := None;
     cd_current_question_index := None; cd_waiting_confirmation := Some true;
     cd_waiting_delete_confirmation := None; cd_event_id := None |}.

Definition awaiting_delete_confirmation (e : option string) : ContextData :=
  {| cd_intent := None; cd_slots := None; cd_questions := None;
     cd_current_question_index := None; cd_waiting_confirmation := None;
     cd_waiting_delete_confirmation := Some true; cd_event_id := e |}.

(** A method of [CalendarClient] invoked from outside or from inside. *)
Inductive ClientCall :=
| CreateEvent (title start : string) (end_ description location : option string)
              (participants : option (list string))
| ListEvents (date : string)
| DeleteEvent (event_id : string)
| FindEvents (title date : string).

(** A request executed against the Google service. *)
Inductive ApiRequest :=
| ApiInsert (body : EventBody)
| ApiList (timeMin timeMax : string)
| ApiDelete (eventId : string).

Inductive PyExn :=
| IndexError | KeyError | TypeError | ValueError | OverflowError
| ZoneInfoNotFoundError | HttpError.

Inductive Res (A : Type) :=
| Ok (a : A)
| Raise (e : PyExn).
Arguments Ok {A} a.
Arguments Raise {A} e.

Section World.
Context `{PyLib} `{CalendarService} `{LLMService}.

Record World := {
  (** [MessageHandler.clarification_context], keyed by user id *)
  clarification_context : gmap Z ContextData;
  (** the calendar behind [CalendarClient.service] *)
  cal : Cal;
  (** the model behind [LLMClient] *)
  llm : LLM;
  (** what [datetime.now()] returns *)
  clock : datetime;
  (** every [reply_text], oldest first, with the chat it went to *)
  outbox : list (Z * string);
  (** every method invoked on the calendar client, oldest first *)
  client_calls : list ClientCall;
  (** every request executed against the service, oldest first *)
  api_requests : list ApiRequest
}.

(** Computations over the world that may raise. *)
Definition M (A : Type) : Type := World -> Res A * World.

Definition ret {A} (a : A) : M A := fun w => (Ok a, w).

Definition bind {A B} (m : M A) (k : A -> M B) : M B :=
  fun w =>
    match m w with
    | (Ok a, w') => k a w'
    | (Raise e, w') => (Raise e, w')
    end.

Definition raise {A} (e : PyExn) : M A := fun w => (Raise e, w).

(** [try: m  except Exception: h] *)
Definition try_except {A} (m : M A) (h : PyExn -> M A) : M A :=
  fun w =>
    match m w with
    | (Ok a, w') => (Ok a, w')
    | (Raise e, w') => h e w'
    end.

(** An operation of the standard library that may raise [e]. *)
Definition lift {A} (o : option A) (e : PyExn) : M A :=
  match o with
  | Some a => ret a
  | None => raise e
  end.

Definition get_context : M (gmap Z ContextData) :=
  fun w => (Ok (clarification_context w), w).

Definition set_context (c : gmap Z ContextData) : M unit :=
  fun w =>
    (Ok tt,
     {| clarification_context := c; cal := cal w; llm := llm w;
        clock := clock w; outbox := outbox w;
        client_calls := client_calls w; api_requests := api_requests w |}).

(** [datetime.now()] *)
Definition now : M datetime := fun w => (Ok (clock w), w).

(** [await update.message.reply_text(text)] in the chat of [user_id]. *)
Definition reply_text (user_id : Z) (text : string) : M unit :=
  fun w =>
    (Ok tt,
     {| clarification_context := clarification_context w; cal := cal w;
        llm := llm w; clock := clock w;
        outbox := outbox w ++ [(user_id, text)];
        client_calls := client_calls w; api_requests := api_requests w |}).

Definition invoked (c : ClientCall) : M unit :=
  fun w =>
    (Ok tt,
     {| clarification_context := clarification_context w; cal := cal w;
        llm := llm w; clock := clock w; outbox := outbox w;
        client_calls := client_calls w ++ [c];
        api_requests := api_requests w |}).

(** Executes [r] against the service: the request is recorded and the
    service moves to [c']. *)
Definition executed (r : ApiRequest) (c' : Cal) : M unit :=
  fun w =>
    (Ok tt,
     {| clarification_context := clarification_context w; cal := c';
        llm := llm w; clock := clock w; outbox := outbox w;
        client_calls := client_calls w;
        api_requests := api_requests w ++ [r] |}).

Definition api_insert (body : EventBody) : M Event :=
  fun w =>
    let '(r, c') := events_insert (cal w) body in
    bind (executed (ApiInsert body) c') (fun _ => lift r HttpError) w.

Definition api_list (timeMin timeMax : string) : M (option (list Event)) :=
  fun w =>
    let '(r, c') := events_list (cal w) timeMin timeMax in
    bind (executed (ApiList timeMin timeMax) c') (fun _ => lift r HttpError) w.

Definition api_delete (eventId : string) : M unit :=
  fun w =>
    let '(r, c') := events_delete (cal w) eventId in
    bind (executed (ApiDelete eventId) c') (fun _ => lift r HttpError) w.

(** [self.llm_client.parse_user_message(text)] *)
Definition llm_parse (text : string) : M (option LLMResponseModel) :=
  fun w =>
    let '(r, l') := parse_user_message (llm w) text in
    (Ok r,
     {| clarification_context := clarification_context w; cal := cal w;
        llm := l'; clock := clock w; outbox := outbox w;
        client_calls := client_calls w; api_requests := api_requests w |}).

End World.

Notation "x <- m ;; k" := (bind m (fun x => k))
  (at level 100, m at next level, right associativity).
Notation "m ;;; k" := (bind m (fun _ => k))
  (at level 100, right associativity).

(** ** calendar_client.py *)

Module CalendarClient.
Section Client.
Context `{PyLib} `{CalendarService} `{LLMService}.

(** [Config], read once by [__init__] into [self.timezone] and
    [self.default_duration_min]. *)
Variable cfg : Config.

(** Python 3.9+: the [zoneinfo] import succeeds, the fallback is dead. *)
Definition _get_timezone : M tzinfo :=
  lift (ZoneInfo (TIMEZONE cfg))
    (if zone_key_malformed (TIMEZONE cfg) then ValueError
     else ZoneInfoNotFoundError).

Definition _parse_datetime (dt_str : string) : M datetime :=
  let dt_str := PyStr.replace_char "Z" "+00:00" dt_str in
  dt <- try_except (lift (fromisoformat dt_str) ValueError)
          (fun e =>
             match e with
             | ValueError =>
                 lift (strptime dt_str "%Y-%m-%dT%H:%M:%S%z") ValueError
             | _ => raise e
             end) ;;
  match dt_tzinfo dt with
  | None => tz <- _get_timezone ;; ret (replace_tzinfo dt tz)
  | Some _ => ret dt
  end.

(** One round of the [for participant in participants] loop; the state
    is [(attendees, description)]. *)
Definition participant_step (participants : list string)
    (acc : list string * option string) (participant : string)
    : list string * option string :=
  let '(attendees, description) := acc in
  if PyStr.contains "@" participant
  then ((attendees ++ [participant])%list, description)
  else
    match description with
    | Some d =>
        if PyStr.truthy d
        then (attendees,
              Some (d +:+ PyStr.NL +:+ "Участники: "
                      +:+ PyStr.join ", " participants))
        else (attendees,
              Some ("Участники: " +:+ PyStr.join ", " participants))
    | None =>
        (attendees, Some ("Участники: " +:+ PyStr.join ", " participants))
    end.

(** The attendees and the description after the participants block. *)
Definition collect_participants (participants : option (list string))
    (description : option string) : list string * option string :=
  match participants with
  | Some (p :: ps) =>
      fold_left (participant_step (p :: ps)) (p :: ps) ([], description)
  | _ => ([], description)
  end.

Definition make_event_body (title : string) (start_dt end_dt : datetime)
    (description location : option string) (attendees : list string)
    : EventBody :=
  {| body_summary := title;
     body_start := {| dateTime := Some (isoformat start_dt); date_ := None;
                      timeZone := Some (TIMEZONE cfg) |};
     body_end := {| dateTime := Some (isoformat end_dt); date_ := None;
                    timeZone := Some (TIMEZONE cfg) |};
     body_description :=
       if PyStr.truthy_opt description then description else None;
     body_location := if PyStr.truthy_opt location then location else None;
     body_attendees :=
       match attendees with
       | [] => None
       | _ :: _ => Some attendees
       end |}.

(** The returned dict holds the five keys [id], [summary], [start],
    [end], [htmlLink] of the created event: the [Event] itself. *)
Definition create_event (title start_datetime : string)
    (end_datetime description location : option string)
    (participants : option (list string)) : M (option Event) :=
  invoked (CreateEvent title start_datetime end_datetime description
                       location participants) ;;;
  try_except
    (start_dt <- _parse_datetime start_datetime ;;
     end_dt <- match end_datetime with
               | Some e =>
                   if PyStr.truthy e then _parse_datetime e
                   else lift (add_minutes start_dt
                                (DEFAULT_EVENT_DURATION_MIN cfg))
                             OverflowError
               | None =>
                   lift (add_minutes start_dt
                           (DEFAULT_EVENT_DURATION_MIN cfg))
                        OverflowError
               end ;;
     let '(attendees, description) :=
       collect_participants participants description in
     event <- api_insert (make_event_body title start_dt end_dt
                            description location attendees) ;;
     ret (Some event))
    (fun _ => ret None).

Definition list_events (date : string) : M (list Event) :=
  invoked (ListEvents date) ;;;
  try_except
    (date_obj <- lift (strptime date "%Y-%m-%d") ValueError ;;
     tz_min <- _get_timezone ;;
     let time_min := replace_tzinfo (combine_min date_obj) tz_min in
     tz_max <- _get_timezone ;;
     let time_max :=
       replace_hms (replace_tzinfo (combine_max date_obj) tz_max) 23 59 59 in
     events_result <- api_list (isoformat time_min) (isoformat time_max) ;;
     ret (default [] events_result))
    (fun _ => ret []).

Definition delete_event (event_id : string) : M bool :=
  invoked (DeleteEvent event_id) ;;;
  try_except
    (api_delete event_id ;;; ret true)
    (fun _ => ret false).

(** [title_lower in event.get('summary', '').lower()] *)
Definition title_matches (title_lower : string) (event : Event) : bool :=
  PyStr.contains title_lower (str_lower (default "" (ev_summary event))).

Definition find_events_by_title_and_date (title date : string)
    : M (list Event) :=
  invoked (FindEvents title date) ;;;
  events <- list_events date ;;
  ret (List.filter (title_matches (str_lower title)) events).

End Client.
End CalendarClient.

(** ** handlers.py *)

Module MessageHandler.
Section Handler.
Context `{PyLib} `{CalendarService} `{LLMService}.

(** [Config]: [self.confidence_threshold] and the client's settings. *)
Variable cfg : Config.

Definition confidence_threshold : float := LLM_CONFIDENCE_THRESHOLD cfg.

Definition _format_datetime_for_user (dt_str : string) : string :=
  match fromisoformat (PyStr.replace_char "Z" "+00:00" dt_str) with
  | Some dt => strftime dt "%d.%m.%Y %H:%M"
  | None => dt_str
  end.

Definition _format_date_for_user (date_str : string) : string :=
  match strptime date_str "%Y-%m-%d" with
  | Some dt => strftime dt "%d.%m.%Y"
  | None => date_str
  end.

(** [intent_map.get(intent, "выполнить действие")] *)
Definition intent_action (i : Intent) : string :=
  match i with
  | create => "создать событие"
  | list_ => "показать события"
  | delete_ => "удалить событие"
  | unknown => "выполнить действие"
  end.

(** The line [label + render v] when the slot [o] is truthy. *)
Definition part_if (o : option string) (label : string)
    (render : string -> string) : list string :=
  match o with
  | Some v => if PyStr.truthy v then [label +:+ render v] else []
  | None => []
  end.

Definition _format_confirmation (llm_response : LLMResponseModel) : string :=
  let action := intent_action (intent llm_response) in
  let slots := slots llm_response in
  let parts :=
    (["Я правильно понял, что нужно " +:+ action +:+ "?"]
     ++ part_if (title slots) "Название: " id
     ++ part_if (start slots) "Время начала: " _format_datetime_for_user
     ++ part_if (end_ slots) "Время окончания: " _format_datetime_for_user
     ++ part_if (location slots) "Место: " id
     ++ match participants slots with
        | Some (p :: ps) => ["Участники: " +:+ PyStr.join ", " (p :: ps)]
        | _ => []
        end)%list in
  PyStr.join PyStr.NL parts.

Definition create_validation_message : string :=
  "Для создания события необходимо указать название и время начала. "
  +:+ "Пожалуйста, уточните эти данные.".

Definition create_failure_message : string :=
  "❌ Не удалось создать событие. Проверьте правильность данных и попробуйте снова.".

(** The success text of [_handle_create]. *)
Definition create_success_message (slots : SlotsModel)
    (title start : string) (event : Event) : string :=
  "✅ Событие создано!" +:+ PyStr.NL +:+ PyStr.NL
  +:+ "📅 " +:+ title +:+ PyStr.NL
  +:+ "🕐 " +:+ _format_datetime_for_user start +:+ PyStr.NL
  +:+ (if PyStr.truthy_opt (location slots)
       then "📍 " +:+ default "" (location slots) +:+ PyStr.NL else "")
  +:+ (match participants slots with
       | Some (p :: ps) =>
           "👥 Участники: " +:+ PyStr.join ", " (p :: ps) +:+ PyStr.NL
       | _ => ""
       end)
  +:+ PyStr.NL +:+ "ID события: " +:+ PyStr.fmt_opt (ev_id event)
  +:+ (if PyStr.truthy_opt (ev_htmlLink event)
       then PyStr.NL +:+ "🔗 " +:+ default "" (ev_htmlLink event) else "").

Definition _handle_create (user_id : Z) (llm_response : LLMResponseModel)
    : M unit :=
  let slots := slots llm_response in
  match title slots, start slots with
  | Some t, Some s =>
      if negb (PyStr.truthy t) || negb (PyStr.truthy s)
      then reply_text user_id create_validation_message
      else
        event <- CalendarClient.create_event cfg t s (end_ slots)
                   (description slots) (location slots)
                   (participants slots) ;;
        match event with
        | Some ev =>
            reply_text user_id (create_success_message slots t s ev)
        | None => reply_text user_id create_failure_message
        end
  | _, _ => reply_text user_id create_validation_message
  end.

(** The date from [slots.date], else from the date part of
    [slots.start]; [None] when neither gives one. *)
Definition target_date_of (slots : SlotsModel) : option string :=
  if PyStr.truthy_opt (date slots) then date slots
  else
    match start slots with
    | Some s =>
        if PyStr.truthy s
        then match fromisoformat (PyStr.replace_char "Z" "+00:00" s) with
             | Some dt => Some (strftime dt "%Y-%m-%d")
             | None => None
             end
        else None
    | None => None
    end.

(** [start.get('dateTime', start.get('date', ''))] with
    [start = event.get('start', {})]. *)
Definition event_start_time (event : Event) : string :=
  match ev_start event with
  | Some st =>
      match dateTime st with
      | Some v => v
      | None => default "" (date_ st)
      end
  | None => ""
  end.

Definition list_line (i : nat) (event : Event) : string :=
  let summary := default "Без названия" (ev_summary event) in
  let start_time := event_start_time event in
  let time_str :=
    if PyStr.truthy start_time
    then match fromisoformat (PyStr.replace_char "Z" "+00:00" start_time) with
         | Some dt => strftime dt "%H:%M"
         | None => start_time
         end
    else "?" in
  let event_id := default "" (ev_id event) in
  PyStr.of_nat i +:+ ". 🕐 " +:+ time_str +:+ " - " +:+ summary +:+ PyStr.NL
  +:+ "   ID: " +:+ PyStr.slice_to 8 event_id +:+ "..."
  +:+ PyStr.NL +:+ PyStr.NL.

(** The body of [for i, event in enumerate(events, i)]. *)
Fixpoint list_lines (i : nat) (events : list Event) : string :=
  match events with
  | [] => ""
  | ev :: rest => list_line i ev +:+ list_lines (S i) rest
  end.

Definition _handle_list (user_id : Z) (llm_response : LLMResponseModel)
    : M unit :=
  let slots := slots llm_response in
  match target_date_of slots with
  | Some target_date =>
      if PyStr.truthy target_date
      then
        events <- CalendarClient.list_events cfg target_date ;;
        match events with
        | [] =>
            reply_text user_id
              ("📅 На " +:+ _format_date_for_user target_date
                 +:+ " нет запланированных событий.")
        | _ :: _ =>
            reply_text user_id
              ("📅 События на " +:+ _format_date_for_user target_date
                 +:+ ":" +:+ PyStr.NL +:+ PyStr.NL +:+ list_lines 1 events)
        end
      else
        reply_text user_id
          ("Пожалуйста, укажите дату для просмотра событий. "
             +:+ "Например: 'покажи события на 27 ноября' или '/view 2025-11-27'")
  | None =>
      reply_text user_id
        ("Пожалуйста, укажите дату для просмотра событий. "
           +:+ "Например: 'покажи события на 27 ноября' или '/view 2025-11-27'")
  end.

Definition delete_done_message : string := "✅ Событие удалено.".
Definition delete_failed_message : string := "❌ Не удалось удалить событие.".
Definition delete_prompt : string := "Удалить это событие? (Да / Нет)".

(** The date searched by [_handle_delete]: today when the slots give
    none. *)
Definition delete_target_date (slots : SlotsModel) : M string :=
  match target_date_of slots with
  | Some d =>
      if PyStr.truthy d then ret d
      else (t <- now ;; ret (strftime t "%Y-%m-%d"))
  | None => t <- now ;; ret (strftime t "%Y-%m-%d")
  end.

(** The text shown for the single match. *)
Definition single_match_message (event : Event) : string :=
  let summary := default "Без названия" (ev_summary event) in
  let start_time := event_start_time event in
  "Найдено событие:" +:+ PyStr.NL +:+ PyStr.NL
  +:+ "📅 " +:+ summary +:+ PyStr.NL
  +:+ (if PyStr.truthy start_time
       then match fromisoformat
                    (PyStr.replace_char "Z" "+00:00" start_time) with
            | Some dt =>
                "🕐 " +:+ strftime dt "%Y-%m-%d %H:%M" +:+ PyStr.NL
            | None => "🕐 " +:+ start_time +:+ PyStr.NL
            end
       else "")
  +:+ PyStr.NL +:+ delete_prompt.

(** One line of the candidate listing; [event_id[:8]] on a missing id
    is a [TypeError], here [None]. *)
Definition candidate_line (i : nat) (event : Event) : option string :=
  let summary := default "Без названия" (ev_summary event) in
  match ev_id event with
  | Some event_id =>
      Some (PyStr.of_nat i +:+ ". " +:+ summary +:+ " (ID: "
              +:+ PyStr.slice_to 8 event_id +:+ "...)" +:+ PyStr.NL)
  | None => None
  end.

Fixpoint candidate_lines (i : nat) (events : list Event) : option string :=
  match events with
  | [] => Some ""
  | ev :: rest =>
      match candidate_line i ev with
      | Some l =>
          match candidate_lines (S i) rest with
          | Some ls => Some (l +:+ ls)
          | None => None
          end
      | None => None
      end
  end.

Definition candidates_message (title : string) (lines : string) : string :=
  "Найдено несколько событий с названием '" +:+ title +:+ "':"
  +:+ PyStr.NL +:+ PyStr.NL +:+ lines +:+ PyStr.NL
  +:+ "Пожалуйста, укажите ID события для удаления.".

Definition _handle_delete (user_id : Z) (llm_response : LLMResponseModel)
    : M unit :=
  let slots := slots llm_response in
  if PyStr.truthy_opt (event_id slots)
  then
    success <- CalendarClient.delete_event (default "" (event_id slots)) ;;
    if success : bool then reply_text user_id delete_done_message
    else reply_text user_id delete_failed_message
  else
    match title slots with
    | Some t =>
        if PyStr.truthy t
        then
          target_date <- delete_target_date slots ;;
          matching_events <-
            CalendarClient.find_events_by_title_and_date cfg t target_date ;;
          match matching_events with
          | [] =>
              reply_text user_id
                ("Не найдено событий с названием '" +:+ t +:+ "' на "
                   +:+ _format_date_for_user target_date +:+ ".")
          | [event] =>
              ctx <- get_context ;;
              set_context
                (<[user_id := awaiting_delete_confirmation (ev_id event)]>
                   ctx) ;;;
              reply_text user_id (single_match_message event)
          | _ :: _ :: _ =>
              lines <- lift (candidate_lines 1 matching_events) TypeError ;;
              reply_text user_id (candidates_message t lines)
          end
        else
          reply_text user_id
            ("Для удаления события необходимо указать его название. "
               +:+ "Пожалуйста, уточните.")
    | None =>
        reply_text user_id
          ("Для удаления события необходимо указать его название. "
             +:+ "Пожалуйста, уточните.")
    end.

Definition help_message : string :=
  "Извините, я не понял вашу команду. "
  +:+ "Попробуйте сказать, например:" +:+ PyStr.NL
  +:+ "- Создать событие: 'назначь встречу на завтра в 15:00'" +:+ PyStr.NL
  +:+ "- Показать события: 'покажи события на 27 ноября'" +:+ PyStr.NL
  +:+ "- Удалить событие: 'удали встречу с Вадимом'".

Definition confirmation_prompt (llm_response : LLMResponseModel) : string :=
  _format_confirmation llm_response +:+ PyStr.NL +:+ PyStr.NL
  +:+ "Правильно ли я понял? (Да / Нет)".

Definition _process_llm_response (user_id : Z)
    (llm_response : LLMResponseModel) : M unit :=
  if needed (clarify llm_response)
     && match questions (clarify llm_response) with
        | [] => false
        | _ :: _ => true
        end
  then
    ctx <- get_context ;;
    set_context
      (<[user_id := awaiting_clarification (intent llm_response)
                      (slots llm_response)
                      (questions (clarify llm_response)) 0]> ctx) ;;;
    first_question <-
      lift (PyStr.index (questions (clarify llm_response)) 0) IndexError ;;
    reply_text user_id first_question
  else if PrimFloat.ltb (confidence llm_response) confidence_threshold
  then
    ctx <- get_context ;;
    set_context
      (<[user_id := awaiting_confirmation (intent llm_response)
                      (slots llm_response)]> ctx) ;;;
    reply_text user_id (confirmation_prompt llm_response)
  else
    match intent llm_response with
    | create => _handle_create user_id llm_response
    | list_ => _handle_list user_id llm_response
    | delete_ => _handle_delete user_id llm_response
    | unknown => reply_text user_id help_message
    end.

Definition affirmative : list string := ["да"; "yes"; "давай"; "ок"; "хорошо"].
Definition negative : list string := ["нет"; "no"; "не"; "неправильно"].
Definition yes_no_reprompt : string := "Пожалуйста, ответьте 'Да' или 'Нет'.".

(** [del self.clarification_context[user_id]] *)
Definition del_context (user_id : Z) : M unit :=
  ctx <- get_context ;;
  match ctx !! user_id with
  | Some _ => set_context (delete user_id ctx)
  | None => raise KeyError
  end.

Definition _handle_clarification_response (user_id : Z)
    (user_message : string) : M unit :=
  ctx <- get_context ;;
  context_data <- lift (ctx !! user_id) KeyError ;;
  if default false (cd_waiting_delete_confirmation context_data)
  then
    let user_message_lower := str_strip (str_lower user_message) in
    if PyStr.in_list user_message_lower affirmative
    then
      (if PyStr.truthy_opt (cd_event_id context_data)
       then
         success <- CalendarClient.delete_event
                      (default "" (cd_event_id context_data)) ;;
         if success : bool then reply_text user_id delete_done_message
         else reply_text user_id delete_failed_message
       else ret tt) ;;;
      del_context user_id
    else if PyStr.in_list user_message_lower negative
    then
      del_context user_id ;;;
      reply_text user_id "Хорошо, событие не будет удалено."
    else reply_text user_id yes_no_reprompt
  else if default false (cd_waiting_confirmation context_data)
  then
    let user_message_lower := str_strip (str_lower user_message) in
    if PyStr.in_list user_message_lower affirmative
    then
      slots <- lift (cd_slots context_data) KeyError ;;
      intent <- lift (cd_intent context_data) KeyError ;;
      (** [SlotsModel] is built again from the stored dict, which runs
          the validators of the schema; pydantic's [ValidationError]
          is a [ValueError]. *)
      (if validate_datetime (start slots) && validate_datetime (end_ slots)
       then ret tt else raise ValueError) ;;;
      let temp_response :=
        {| intent := intent; confidence := 1%float; slots := slots;
           clarify := {| needed := false; questions := [] |} |} in
      del_context user_id ;;;
      match intent with
      | create => _handle_create user_id temp_response
      | list_ => _handle_list user_id temp_response
      | delete_ => _handle_delete user_id temp_response
      | unknown => ret tt
      end
    else if PyStr.in_list user_message_lower negative
    then
      del_context user_id ;;;
      reply_text user_id
        "Понятно. Пожалуйста, переформулируйте ваш запрос более подробно."
    else reply_text user_id yes_no_reprompt
  else
    let questions := default [] (cd_questions context_data) in
    let current_index := default 0 (cd_current_question_index context_data) in
    if current_index <? Z.of_nat (length questions) - 1
    then
      set_context
        (<[user_id :=
             {| cd_intent := cd_intent context_data;
                cd_slots := cd_slots context_data;
                cd_questions := cd_questions context_data;
                cd_current_question_index := Some (current_index + 1);
                cd_waiting_confirmation :=
                  cd_waiting_confirmation context_data;
                cd_waiting_delete_confirmation :=
                  cd_waiting_delete_confirmation context_data;
                cd_event_id := cd_event_id context_data |}]> ctx) ;;;
      next_question <-
        lift (PyStr.index questions (current_index + 1)) IndexError ;;
      reply_text user_id next_question
    else
      del_context user_id ;;;
      reply_text user_id "Спасибо за уточнения. Обрабатываю ваш запрос..." ;;;
      reply_text user_id
        "Пожалуйста, повторите ваш запрос с учетом уточнений.".

Definition llm_error_message : string :=
  "Извините, произошла ошибка при обработке вашего запроса. "
  +:+ "Попробуйте переформулировать.".

(** The branch of [handle_message] taken when the user has no entry in
    [clarification_context]. *)
Definition evaluate_fresh (user_id : Z) (user_message : string) : M unit :=
  llm_response <- llm_parse user_message ;;
  match llm_response with
  | None => reply_text user_id llm_error_message
  | Some r => _process_llm_response user_id r
  end.

Definition handle_message (user_id : Z) (text : string) : M unit :=
  let user_message := str_strip text in
  ctx <- get_context ;;
  match ctx !! user_id with
  | Some _ => _handle_clarification_response user_id user_message
  | None => evaluate_fresh user_id user_message
  end.

End Handler.
End MessageHandler.

(** ** A concrete standard library, calendar and language model

    An instance of each interface, on which the scenarios of the
    specification are run: [lower] and [strip] for ASCII and Russian
    text, a proleptic Gregorian [datetime] with a fixed offset, a
    calendar that stores the inserted events, and a language model that
    replays scripted answers. *)

Module Fixture.

Definition code (a : ascii) : Z := Z.of_N (N_of_ascii a).
Definition chr (n : Z) : ascii := ascii_of_N (Z.to_N n).

Fixpoint lower (s : string) : string :=
  match s with
  | EmptyString => EmptyString
  | String a rest =>
      if (65 <=? code a) && (code a <=? 90)
      then String (chr (code a + 32)) (lower rest)
      else if code a =? 208
      then match rest with
           | String b rest' =>
               if (144 <=? code b) && (code b <=? 159)
               then String a (String (chr (code b + 32)) (lower rest'))
               else if (160 <=? code b) && (code b <=? 175)
               then String (chr 209) (String (chr (code b - 32)) (lower rest'))
               else if code b =? 129
               then String (chr 209) (String (chr 145) (lower rest'))
               else String a (String b (lower rest'))
           | EmptyString => String a EmptyString
           end
      else String a (lower rest)
  end.

Definition is_space (a : ascii) : bool :=
  ((9 <=? code a) && (code a <=? 13))
  || ((28 <=? code a) && (code a <=? 32)).

Fixpoint lstrip (s : string) : string :=
  match s with
  | EmptyString => EmptyString
  | String a rest => if is_space a then lstrip rest else s
  end.

Fixpoint rstrip (s : string) : string :=
  match s with
  | EmptyString => EmptyString
  | String a rest =>
      let rest' := rstrip rest in
      if is_space a && String.eqb rest' "" then "" else String a rest'
  end.

Definition strip (s : string) : string := rstrip (lstrip s).

Record DT := {
  year : Z; month : Z; day : Z;
  hour : Z; minute : Z; second : Z; microsecond : Z;
  (** minutes east of UTC *)
  offset : option Z
}.

Definition is_leap (y : Z) : bool :=
  ((y mod 4 =? 0) && negb (y mod 100 =? 0)) || (y mod 400 =? 0).

Definition days_in_month (y m : Z) : Z :=
  if m =? 2 then (if is_leap y then 29 else 28)
  else if (m =? 4) || (m =? 6) || (m =? 9) || (m =? 11) then 30
  else 31.

Definition days_from_civil (y m d : Z) : Z :=
  let y' := if m <=? 2 then y - 1 else y in
  let era := y' / 400 in
  let yoe := y' - era * 400 in
  let doy := (153 * (if 2 <? m then m - 3 else m + 9) + 2) / 5 + d - 1 in
  let doe := yoe * 365 + yoe / 4 - yoe / 100 + doy in
  era * 146097 + doe - 719468.

Definition civil_from_days (z : Z) : Z * Z * Z :=
  let z := z + 719468 in
  let era := z / 146097 in
  let doe := z - era * 146097 in
  let yoe := (doe - doe / 1460 + doe / 36524 - doe / 146096) / 365 in
  let doy := doe - (365 * yoe + yoe / 4 - yoe / 100) in
  let mp := (5 * doy + 2) / 153 in
  let d := doy - (153 * mp + 2) / 5 + 1 in
  let m := if mp <? 10 then mp + 3 else mp - 9 in
  (yoe + era * 400 + (if m <=? 2 then 1 else 0), m, d).

Definition plus_minutes (dt : DT) (n : Z) : option DT :=
  let total :=
    (days_from_civil (year dt) (month dt) (day dt)) * 1440
    + hour dt * 60 + minute dt + n in
  let '(y, m, d) := civil_from_days (total / 1440) in
  if (1 <=? y) && (y <=? 9999)
  then Some {| year := y; month := m; day := d;
               hour := (total mod 1440) / 60; minute := total mod 60;
               second := second dt; microsecond := microsecond dt;
               offset := offset dt |}
  else None.

Definition digit (a : ascii) : option Z :=
  if (48 <=? code a) && (code a <=? 57) then Some (code a - 48) else None.

Fixpoint digits_from (acc : Z) (s : string) : option Z :=
  match s with
  | EmptyString => Some acc
  | String a rest => d ← digit a; digits_from (acc * 10 + d) rest
  end.

(** The number written by the [len] digits of [s] at [pos]. *)
Definition num_at (s : string) (pos len : nat) : option Z :=
  let t := substring pos len s in
  if Nat.eqb (String.length t) len then digits_from 0 t else None.

Definition char_is (s : string) (pos : nat) (c : ascii) : bool :=
  match String.get pos s with
  | Some a => Ascii.eqb a c
  | None => false
  end.

Definition guard_opt (b : bool) : option unit :=
  if b then Some tt else None.

Definition parse_date (s : string) : option (Z * Z * Z) :=
  y ← num_at s 0 4; _ ← guard_opt (char_is s 4 "-");
  m ← num_at s 5 2; _ ← guard_opt (char_is s 7 "-");
  d ← num_at s 8 2;
  _ ← guard_opt ((1 <=? y) && (1 <=? m) && (m <=? 12)
                 && (1 <=? d) && (d <=? days_in_month y m));
  Some (y, m, d).

(** [HH:MM] or [HH:MM:SS] at [pos]; also the position after it. *)
Definition parse_time (s : string) (pos : nat) : option (Z * Z * Z * nat) :=
  h ← num_at s pos 2; _ ← guard_opt (char_is s (pos + 2) ":");
  mi ← num_at s (pos + 3) 2;
  _ ← guard_opt ((h <? 24) && (mi <? 60));
  if char_is s (pos + 5) ":"
  then sec ← num_at s (pos + 6) 2; _ ← guard_opt (sec <? 60);
       Some (h, mi, sec, (pos + 8)%nat)
  else Some (h, mi, 0, (pos + 5)%nat).

(** Nothing, [+HH:MM] or [-HH:MM] at [pos], up to the end of [s]. *)
Definition parse_offset (s : string) (pos : nat) : option (option Z) :=
  if Nat.eqb pos (String.length s) then Some None
  else
    sign ← (if char_is s pos "+" then Some 1
            else if char_is s pos "-" then Some (-1) else None);
    h ← num_at s (pos + 1) 2; _ ← guard_opt (char_is s (pos + 3) ":");
    mi ← num_at s (pos + 4) 2;
    _ ← guard_opt ((h <? 24) && (mi <? 60)
                   && Nat.eqb (pos + 6) (String.length s));
    Some (Some (sign * (h * 60 + mi))).

Definition parse_iso (s : string) : option DT :=
  '(y, m, d) ← parse_date s;
  if Nat.eqb (String.length s) 10
  then Some {| year := y; month := m; day := d; hour := 0; minute := 0;
               second := 0; microsecond := 0; offset := None |}
  else
    _ ← guard_opt (char_is s 10 "T" || char_is s 10 " ");
    '(h, mi, sec, pos) ← parse_time s 11;
    off ← parse_offset s pos;
    Some {| year := y; month := m; day := d; hour := h; minute := mi;
            second := sec; microsecond := 0; offset := off |}.

Definition parse_format (s fmt : string) : option DT :=
  if String.eqb fmt "%Y-%m-%d"
  then if Nat.eqb (String.length s) 10 then parse_iso s else None
  else if String.eqb fmt "%Y-%m-%dT%H:%M:%S%z"
  then if Nat.eqb (String.length s) 25 then parse_iso s else None
  else None.

Definition pad (width : nat) (n : Z) : string :=
  let t : string := pretty (Z.to_N n) in
  String.concat "" (replicate (width - String.length t) "0") +:+ t.

Definition show_offset (colon : bool) (o : option Z) : string :=
  match o with
  | None => ""
  | Some n =>
      (if n <? 0 then "-" else "+")
      +:+ pad 2 (Z.abs n / 60) +:+ (if colon then ":" else "")
      +:+ pad 2 (Z.abs n mod 60)
  end.

Definition directive (dt : DT) (c : ascii) : string :=
  if Ascii.eqb c "Y" then pad 4 (year dt)
  else if Ascii.eqb c "m" then pad 2 (month dt)
  else if Ascii.eqb c "d" then pad 2 (day dt)
  else if Ascii.eqb c "H" then pad 2 (hour dt)
  else if Ascii.eqb c "M" then pad 2 (minute dt)
  else if Ascii.eqb c "S" then pad 2 (second dt)
  else if Ascii.eqb c "z" then show_offset false (offset dt)
  else String "%" (String c EmptyString).

Fixpoint format (dt : DT) (fmt : string) : string :=
  match fmt with
  | EmptyString => EmptyString
  | String a rest =>
      if Ascii.eqb a "%"
      then match rest with
           | String c rest' => directive dt c +:+ format dt rest'
           | EmptyString => String a EmptyString
           end
      else String a (format dt rest)
  end.

Definition iso (dt : DT) : string :=
  format dt "%Y-%m-%dT%H:%M:%S"
  +:+ (if microsecond dt =? 0 then "" else "." +:+ pad 6 (microsecond dt))
  +:+ show_offset true (offset dt).

Definition zone (name : string) : option Z :=
  if String.eqb name "Europe/Moscow" then Some 180
  else if String.eqb name "UTC" then Some 0
  else None.

#[export] Instance py : PyLib := {|
  str_lower := lower;
  str_strip := strip;
  datetime := DT;
  tzinfo := Z;
  fromisoformat := parse_iso;
  strptime := parse_format;
  strftime := format;
  isoformat := iso;
  dt_tzinfo := offset;
  replace_tzinfo := fun dt tz =>
    {| year := year dt; month := month dt; day := day dt; hour := hour dt;
       minute := minute dt; second := second dt;
       microsecond := microsecond dt; offset := Some tz |};
  add_minutes := plus_minutes;
  ZoneInfo := zone;
  zone_key_malformed := fun name =>
    String.eqb name "" || String.prefix "/" name;
  combine_min := fun dt =>
    {| year := year dt; month := month dt; day := day dt; hour := 0;
       minute := 0; second := 0; microsecond := 0; offset := None |};
  combine_max := fun dt =>
    {| year := year dt; month := month dt; day := day dt; hour := 23;
       minute := 59; second := 59; microsecond := 999999; offset := None |};
  replace_hms := fun dt h m s =>
    {| year := year dt; month := month dt; day := day dt; hour := h;
       minute := m; second := s; microsecond := microsecond dt;
       offset := offset dt |}
|}.

Definition has_id (i : string) (ev : Event) : bool :=
  match ev_id ev with
  | Some j => String.eqb i j
  | None => false
  end.

(** The event starts on the day [day], written [YYYY-MM-DD]. *)
Definition on_day (day : string) (ev : Event) : bool :=
  match ev_start ev with
  | Some st => String.prefix day (default "" (dateTime st))
  | None => false
  end.

Definition stored (c : list Event) (body : EventBody) : Event :=
  let n : string := pretty (N.of_nat (length c)) in
  {| ev_id := Some ("evt" +:+ n);
     ev_summary := Some (body_summary body);
     ev_start := Some (body_start body);
     ev_end := Some (body_end body);
     ev_htmlLink := Some ("https://calendar.example/event?eid=evt" +:+ n) |}.

#[export] Instance calendar : CalendarService := {|
  Cal := list Event;
  events_insert := fun c body => (Some (stored c body), c ++ [stored c body]);
  events_list := fun c timeMin _ =>
    (Some (Some (List.filter (on_day (substring 0 10 timeMin)) c)), c);
  events_delete := fun c i =>
    if existsb (has_id i) c
    then (Some tt, List.filter (fun ev => negb (has_id i ev)) c)
    else (None, c)
|}.

#[export] Instance model : LLMService := {|
  LLM := list (option LLMResponseModel);
  parse_user_message := fun l _ =>
    match l with
    | [] => (None, [])
    | r :: rest => (r, rest)
    end
|}.

Definition noon : DT :=
  {| year := 2025; month := 11; day := 27; hour := 12; minute := 0;
     second := 0; microsecond := 0; offset := Some 180 |}.

(** A process that has just started: no dialogue, nothing sent. *)
Definition boot (c : list Event) (l : list (option LLMResponseModel))
    : World :=
  {| clarification_context := ∅; cal := c; llm := l; clock := noon;
     outbox := []; client_calls := []; api_requests := [] |}.

(** An event of the calendar as the service returns it. *)
Definition meeting (i summary start : string) : Event :=
  {| ev_id := Some i; ev_summary := Some summary;
     ev_start := Some {| dateTime := Some start; date_ := None;
                         timeZone := Some "Europe/Moscow" |};
     ev_end := None; ev_htmlLink := None |}.

End Fixture.

(** ** What a turn is observed to do

    The vocabulary of the statements below: what a turn appends to the
    outbox and to the logs, and the pieces of the handlers that the
    statements name. *)

Definition is_delete_call (c : ClientCall) : bool :=
  match c with
  | DeleteEvent _ => true
  | _ => false
  end.

Definition is_delete_request (r : ApiRequest) : bool :=
  match r with
  | ApiDelete _ => true
  | _ => false
  end.

Section Observations.
Context `{PyLib} `{CalendarService} `{LLMService}.
Variable cfg : Config.

Import CalendarClient MessageHandler.

(** What a call on the calendar client leaves alone: the dialogue
    store, the outbox, the language model and the clock. *)
Definition client_frame (w w' : World) : Prop :=
  clarification_context w' = clarification_context w
  /\ outbox w' = outbox w
  /\ llm w' = llm w
  /\ clock w' = clock w.

(** The head of the text that asks to confirm a guessed intent. *)
Definition is_confirmation_prompt (m : string) : bool :=
  String.prefix "Я правильно понял, что нужно " m.

(** What every turn does to the outbox and the logs: it appends. *)
Record appended (w w' : World)
    (msgs : list (Z * string)) (calls : list ClientCall)
    (reqs : list ApiRequest) : Prop := {
  app_outbox : outbox w' = outbox w ++ msgs;
  app_calls : client_calls w' = client_calls w ++ calls;
  app_reqs : api_requests w' = api_requests w ++ reqs
}.

Definition no_delete (calls : list ClientCall) (reqs : list ApiRequest)
    : Prop :=
  Forall (fun c => is_delete_call c = false) calls
  /\ Forall (fun q => is_delete_request q = false) reqs.

Definition no_prompt (msgs : list (Z * string)) : Prop :=
  Forall (fun m => is_confirmation_prompt m.2 = false) msgs.

(** [_handle_delete] on a title search, once the search has run. *)
Definition after_search (uid : Z) (t d : string) (evs : list Event)
    : M unit :=
  match evs with
  | [] =>
      reply_text uid
        ("Не найдено событий с названием '" +:+ t +:+ "' на "
           +:+ _format_date_for_user d +:+ ".")
  | [event] =>
      ctx <- get_context ;;
      set_context
        (<[uid := awaiting_delete_confirmation (ev_id event)]> ctx) ;;;
      reply_text uid (single_match_message event)
  | _ :: _ :: _ =>
      lines <- lift (candidate_lines 1 evs) TypeError ;;
      reply_text uid (candidates_message t lines)
  end.

(** The dispatch at the end of [_process_llm_response]. *)
Definition dispatch (uid : Z) (r : LLMResponseModel) : M unit :=
  match intent r with
  | create => _handle_create cfg uid r
  | list_ => _handle_list cfg uid r
  | delete_ => _handle_delete cfg uid r
  | unknown => reply_text uid help_message
  end.

(** The listing of the candidates: one numbered line per event, with
    its summary and its identifier cut to eight characters. *)
Fixpoint candidate_listing (i : nat) (evs : list Event) : string :=
  match evs with
  | [] => ""
  | ev :: rest =>
      (PyStr.of_nat i +:+ ". " +:+ default "Без названия" (ev_summary ev)
         +:+ " (ID: " +:+ PyStr.slice_to 8 (default "" (ev_id ev))
         +:+ "...)" +:+ PyStr.NL)
      +:+ candidate_listing (S i) rest
  end.

(** The Intent Result [r] with its clarification request dropped. *)
Definition without_clarification (r : LLMResponseModel) : LLMResponseModel :=
  {| intent := intent r; confidence := confidence r; slots := slots r;
     clarify := {| needed := false; questions := [] |} |}.

End Observations.

(** ** The scenarios

    Concrete Intent Results, events and worlds over [Fixture]. *)

Section ScenarioData.
#[local] Existing Instances Fixture.py Fixture.calendar Fixture.model.
Import CalendarClient MessageHandler.

Definition moscow_3pm : string := "2025-11-27T15:00:00+03:00".

(** [{intent, confidence, slots}] with no clarification request. *)
Definition result (i : Intent) (c : float) (s : SlotsModel)
    : LLMResponseModel :=
  {| intent := i; confidence := c; slots := s;
     clarify := {| needed := false; questions := [] |} |}.

Definition meeting_slots : SlotsModel :=
  {| title := Some "Встреча"; start := Some moscow_3pm; end_ := None;
     date := None; participants := None; description := None;
     location := None; event_id := None |}.

Definition vadim : Event :=
  Fixture.meeting "evt0a1b2c3d4e5" "Встреча с Вадимом" moscow_3pm.

Definition anna : Event :=
  Fixture.meeting "evt1f6g7h8i9j0" "Встреча с Анной"
    "2025-11-27T18:00:00+03:00".

(** The process while user [uid] has the pending state [cd]. *)
Definition pending (uid : Z) (cd : ContextData) (c : list Event) : World :=
  {| clarification_context := {[uid := cd]}; cal := c; llm := [];
     clock := Fixture.noon; outbox := []; client_calls := [];
     api_requests := [] |}.

Definition by_title (t : string) : SlotsModel :=
  {| title := Some t; start := None; end_ := None;
     date := Some "2025-11-27"; participants := None; description := None;
     location := None; event_id := None |}.


Definition ask (i : Intent) (c : float) (s : SlotsModel)
    (qs : list string) : LLMResponseModel :=
  {| intent := i; confidence := c; slots := s;
     clarify := {| needed := true; questions := qs |} |}.

(** C4 as the specification states it, for one turn: whenever
    [clarify.needed] is true, the first question is sent and the
    awaiting-clarification state with cursor 0 is stored. *)
Definition first_question_always_asked (cfg : Config) (uid : Z)
    (r : LLMResponseModel) (w : World) : Prop :=
  needed (clarify r) = true ->
  exists q w',
    head (questions (clarify r)) = Some q
    /\ _process_llm_response cfg uid r w = (Ok tt, w')
    /\ outbox w' = outbox w ++ [(uid, q)]
    /\ clarification_context w' !! uid
       = Some (awaiting_clarification (intent r) (slots r)
                 (questions (clarify r)) 0).

Definition with_participants (ps : list string) : SlotsModel :=
  {| title := Some "Встреча"; start := Some moscow_3pm; end_ := None;
     date := None; participants := Some ps; description := None;
     location := None; event_id := None |}.

(** The description and the attendees of the one event inserted by
    creating a meeting with the participants [ps]. *)
Definition created_with (ps : list string)
    : option (option string * option (list string)) :=
  match api_requests
          (create_event Config_default "Встреча" moscow_3pm None None None
             (Some ps) (Fixture.boot [] [])).2 with
  | [ApiInsert body] => Some (body_description body, body_attendees body)
  | _ => None
  end.

Definition at_3pm : Fixture.DT :=
  {| Fixture.year := 2025; Fixture.month := 11; Fixture.day := 27;
     Fixture.hour := 15; Fixture.minute := 0; Fixture.second := 0;
     Fixture.microsecond := 0; Fixture.offset := Some 180 |}.

Definition at_4pm : Fixture.DT :=
  {| Fixture.year := 2025; Fixture.month := 11; Fixture.day := 27;
     Fixture.hour := 16; Fixture.minute := 0; Fixture.second := 0;
     Fixture.microsecond := 0; Fixture.offset := Some 180 |}.

End ScenarioData.

(** ** The command handlers and the application

    The rest of [handlers.py] ([handle_start], [handle_add],
    [handle_view], [handle_delete_command]) and the registration of the
    handlers in [main.py]. *)

Module PyText.

(** [s.replace(old, new)] for a non-empty [old]: the occurrences are
    taken left to right and do not overlap; [skip] counts the
    characters of the occurrence just replaced that are still to drop. *)
Fixpoint replace_from (old new : string) (skip : nat) (s : string)
    : string :=
  match s with
  | EmptyString => EmptyString
  | String a rest =>
      match skip with
      | S k => replace_from old new k rest
      | O =>
          if String.prefix old s
          then new +:+ replace_from old new (String.length old - 1)%nat rest
          else String a (replace_from old new 0 rest)
      end
  end.

Definition replace (old new s : string) : string :=
  replace_from old new 0 s.

(** [len(s)]: the number of code points. *)
Fixpoint len (s : string) : nat :=
  match s with
  | EmptyString => O
  | String a rest =>
      if PyStr.is_continuation a then len rest else S (len rest)
  end.

End PyText.

(** [update.message.text = ...]: whether a message lets its text be
    assigned belongs to the telegram library; the assignment returns or
    raises. *)
Class TelegramLib := {
  text_assignment : Res unit
}.

Module Commands.
Section Commands.
Context `{PyLib} `{CalendarService} `{LLMService} `{TelegramLib}.
Variable cfg : Config.

Import MessageHandler.

Definition start_message : string :=
  "👋 Привет! Я бот-планировщик для Google Calendar." +:+ PyStr.NL
  +:+ PyStr.NL
  +:+ "Я могу помочь вам:" +:+ PyStr.NL
  +:+ "✅ Создавать события (например: 'назначь встречу на завтра в 15:00')"
  +:+ PyStr.NL
  +:+ "📅 Просматривать события (например: 'покажи события на 27 ноября')"
  +:+ PyStr.NL
  +:+ "❌ Удалять события (например: 'удали встречу с Вадимом')"
  +:+ PyStr.NL +:+ PyStr.NL
  +:+ "Просто напишите мне вашу задачу естественным языком!".

Definition handle_start (user_id : Z) : M unit :=
  reply_text user_id start_message.

Definition add_usage : string :=
  "Использование: /add <текст>" +:+ PyStr.NL
  +:+ "Пример: /add назначь встречу на завтра в 15:00".

(** The text handed on is [update.message.text], command included. *)
Definition handle_add (user_id : Z) (text : string) : M unit :=
  let command_text := str_strip (PyText.replace "/add" "" text) in
  if negb (PyStr.truthy command_text)
  then reply_text user_id add_usage
  else handle_message cfg user_id text.

Definition view_usage : string :=
  "Использование: /view YYYY-MM-DD" +:+ PyStr.NL
  +:+ "Пример: /view 2025-11-27".

(** [update.message.text = ...] *)
Definition set_message_text : M unit := fun w => (text_assignment, w).

Definition handle_view (user_id : Z) (text : string) : M unit :=
  let command_text := str_strip (PyText.replace "/view" "" text) in
  if negb (PyStr.truthy command_text)
  then reply_text user_id view_usage
  else
    set_message_text ;;;
    handle_message cfg user_id ("покажи события на " +:+ command_text).

Definition delete_usage : string :=
  "Использование: /delete <event_id|название>" +:+ PyStr.NL
  +:+ "Пример: /delete abc123 или /delete встреча с Вадимом".

Definition delete_by_id_failed_message : string :=
  "❌ Не удалось удалить событие. Проверьте ID.".

(** [len(command_text) < 50 and not " " in command_text] *)
Definition looks_like_id (command_text : string) : bool :=
  (PyText.len command_text <? 50)%nat
  && negb (PyStr.contains " " command_text).

Definition handle_delete_command (user_id : Z) (text : string) : M unit :=
  let command_text := str_strip (PyText.replace "/delete" "" text) in
  if negb (PyStr.truthy command_text)
  then reply_text user_id delete_usage
  else if looks_like_id command_text
  then
    success <- CalendarClient.delete_event command_text ;;
    if success : bool then reply_text user_id delete_done_message
    else reply_text user_id delete_by_id_failed_message
  else
    set_message_text ;;;
    handle_message cfg user_id ("удали " +:+ command_text).

(** An update as [main.py] routes it: one of the four commands, or a
    text message that is not a command. *)
Inductive Update :=
| StartCommand
| AddCommand (text : string)
| ViewCommand (text : string)
| DeleteCommand (text : string)
| TextMessage (text : string).

Definition error_message : string :=
  "Произошла ошибка при обработке вашего запроса. Попробуйте позже.".

(** [main.error_handler]: the reply sent when a handler raised. *)
Definition error_handler (user_id : Z) : M unit :=
  reply_text user_id error_message.

(** The handler registered for the update, run by the application,
    which passes what it raises to [error_handler]. *)
Definition process_update (user_id : Z) (u : Update) : M unit :=
  try_except
    match u with
    | StartCommand => handle_start user_id
    | AddCommand text => handle_add user_id text
    | ViewCommand text => handle_view user_id text
    | DeleteCommand text => handle_delete_command user_id text
    | TextMessage text => handle_message cfg user_id text
    end
    (fun _ => error_handler user_id).

(** The polling loop: the updates of all chats, oldest first, each with
    the id of its sender. *)
Fixpoint serve (updates : list (Z * Update)) : M unit :=
  match updates with
  | [] => ret tt
  | (user_id, u) :: rest => process_update user_id u ;;; serve rest
  end.

End Commands.
End Commands.

(** ** Conversations and well-formed stores *)

Section Conversations.
Context `{PyLib} `{CalendarService} `{LLMService}.
Variable cfg : Config.

Import MessageHandler.

(** What the reply handlers compare with the yes and no words: the
    text stripped, lowercased and stripped again. *)
Definition normalized (text : string) : string :=
  str_strip (str_lower (str_strip text)).

Definition is_yes (text : string) : bool :=
  PyStr.in_list (normalized text) affirmative.

Definition is_no (text : string) : bool :=
  PyStr.in_list (normalized text) negative.

(** The messages [texts] of one user, handled one after the other. *)
Fixpoint converse (user_id : Z) (texts : list string) : M unit :=
  match texts with
  | [] => ret tt
  | t :: rest => handle_message cfg user_id t ;;; converse user_id rest
  end.

(** The three dicts that [handlers.py] stores, the cursor of a
    clarification inside its questions. *)
Inductive pending_shape : ContextData -> Prop :=
| shape_clarification (i : Intent) (s : SlotsModel) (qs : list string)
    (k : Z) :
    0 <= k < Z.of_nat (length qs) ->
    pending_shape (awaiting_clarification i s qs k)
| shape_confirmation (i : Intent) (s : SlotsModel) :
    pending_shape (awaiting_confirmation i s)
| shape_delete (e : option string) :
    pending_shape (awaiting_delete_confirmation e).

Definition store_wf (w : World) : Prop :=
  map_Forall (fun _ cd => pending_shape cd) (clarification_context w).

(** The world after a call of the client: the call is logged, and at
    most one request has been executed. *)
Definition after_call (c : ClientCall) (w w' : World) : Prop :=
  w' = (invoked c w).2
  \/ exists r c', w' = (executed r c' (invoked c w).2).2.

(** The entry of a clarification after one more answer. *)
Definition advanced (cd : ContextData) : ContextData :=
  {| cd_intent := cd_intent cd;
     cd_slots := cd_slots cd;
     cd_questions := cd_questions cd;
     cd_current_question_index :=
       Some (default 0 (cd_current_question_index cd) + 1);
     cd_waiting_confirmation := cd_waiting_confirmation cd;
     cd_waiting_delete_confirmation := cd_waiting_delete_confirmation cd;
     cd_event_id := cd_event_id cd |}.

(** The world with the entry of [user_id] set to [cd], or removed. *)
Definition put (user_id : Z) (cd : ContextData) (w : World) : World :=
  (set_context (<[user_id := cd]> (clarification_context w)) w).2.

Definition drop_entry (user_id : Z) (w : World) : World :=
  (set_context (delete user_id (clarification_context w)) w).2.


(** The turn of [user_id] left every other user alone: their pending
    states are as before and every new message went to [user_id]. *)
Definition touches_only (user_id : Z) (w w' : World) : Prop :=
  (forall v, v <> user_id ->
             clarification_context w' !! v = clarification_context w !! v)
  /\ exists msgs,
       outbox w' = outbox w ++ msgs
       /\ Forall (fun m => m.1 = user_id) msgs.

(** The text sent when a pending confirmation is declined. *)
Definition declined_message (cd : ContextData) : string :=
  if default false (cd_waiting_delete_confirmation cd)
  then "Хорошо, событие не будет удалено."
  else "Понятно. Пожалуйста, переформулируйте ваш запрос более подробно.".

(** The Intent Result that a confirmed guess is run with. *)
Definition confirmed (i : Intent) (s : SlotsModel) : LLMResponseModel :=
  {| intent := i; confidence := 1%float; slots := s;
     clarify := {| needed := false; questions := [] |} |}.

(** The two messages that close a clarification. *)
Definition clarification_closing : list string :=
  ["Спасибо за уточнения. Обрабатываю ваш запрос...";
   "Пожалуйста, повторите ваш запрос с учетом уточнений."].

(** The calendar and the logs of the client are as before. *)
Definition calendar_untouched (w w' : World) : Prop :=
  cal w' = cal w
  /\ client_calls w' = client_calls w
  /\ api_requests w' = api_requests w.

(** Every stored dict of slots is one that the schema accepts. *)
Definition stored_slots_valid (w : World) : Prop :=
  map_Forall
    (fun _ cd => forall s, cd_slots cd = Some s -> SlotsModel_valid s)
    (clarification_context w).

(** The user [v] is a bystander of what happened between [w] and [w']:
    their pending state is as before and no new message went to them. *)
Definition bystander (v : Z) (w w' : World) : Prop :=
  clarification_context w' !! v = clarification_context w !! v
  /\ exists msgs,
       outbox w' = outbox w ++ msgs
       /\ Forall (fun m => m.1 <> v) msgs.

End Conversations.

(** A calendar service that is out of reach: every request fails. *)
Definition offline : CalendarService :=
  {| Cal := unit;
     events_insert := fun c _ => (None, c);
     events_list := fun c _ _ => (None, c);
     events_delete := fun c _ => (None, c) |}.

(** A telegram library whose messages let their text be assigned. *)
Definition assignable_text : TelegramLib := {| text_assignment := Ok tt |}.

(** ** llm_client.py: the JSON text inside an answer of the model

    Positions count bytes here and code points in Python; the markers
    searched for are ASCII, so the slices taken are the same texts. *)

(** [json.loads(s)] returns rather than raises. *)
Class JsonLib := {
  json_loads_ok : string -> bool
}.

Module LLMClient.
Section Extract.
Context `{PyLib} `{JsonLib}.

(** The loop over [enumerate(text)]: the position at which
    [brace_count] comes back to 0; [i] is the position of the head of
    [text]. *)
Fixpoint closing_brace (brace_count : Z) (i : nat) (text : string)
    : option nat :=
  match text with
  | EmptyString => None
  | String char rest =>
      if Ascii.eqb char "{"
      then closing_brace (brace_count + 1) (S i) rest
      else if Ascii.eqb char "}"
      then if brace_count - 1 =? 0 then Some i
           else closing_brace (brace_count - 1) (S i) rest
      else closing_brace brace_count (S i) rest
  end.

(** [text.endswith(c)] for a one-character [c]. *)
Fixpoint endswith (c : ascii) (text : string) : bool :=
  match text with
  | EmptyString => false
  | String a EmptyString => Ascii.eqb a c
  | String _ rest => endswith c rest
  end.

(** [text.split(sep)] for a non-empty [sep]; [skip] counts the
    characters of the separator just met that are still to drop, [part]
    holds the current part, last character first. *)
Fixpoint split_from (sep : string) (skip : nat) (part : list ascii)
    (text : string) : list string :=
  match text with
  | EmptyString => [string_of_list_ascii (rev part)]
  | String a rest =>
      match skip with
      | S k => split_from sep k part rest
      | O =>
          if String.prefix sep text
          then string_of_list_ascii (rev part)
               :: split_from sep (String.length sep - 1)%nat [] rest
          else split_from sep 0 (a :: part) rest
      end
  end.

Definition split (sep text : string) : list string :=
  split_from sep 0 [] text.

(** The first attempt: the text up to the brace that closes the first
    one, when [json.loads] accepts it. *)
Definition from_braces (text : string) : option string :=
  if String.prefix "{" text
  then
    match closing_brace 0 0 text with
    | Some end_idx =>
        if (0 <? end_idx)%nat
        then
          let json_str := substring 0 (end_idx + 1) text in
          if json_loads_ok json_str then Some json_str else None
        else None
    | None => None
    end
  else None.

(** The second attempt: what stands between [```json] and the next
    [```]. *)
Definition from_json_fence (text : string) : option string :=
  if PyStr.contains "```json" text
  then
    match String.index 0 "```json" text with
    | Some found =>
        let start := (found + 7)%nat in
        match String.index start "```" text with
        | Some end_ =>
            if (start <? end_)%nat
            then Some (str_strip (substring start (end_ - start) text))
            else None
        | None => None
        end
    | None => None
    end
  else None.

(** The loop of the third attempt over the parts between the fences. *)
Fixpoint first_object (parts : list string) : option string :=
  match parts with
  | [] => None
  | part :: rest =>
      let part := str_strip part in
      if String.prefix "{" part && endswith "}" part
      then if json_loads_ok part then Some part else first_object rest
      else first_object rest
  end.

Definition from_fence (text : string) : option string :=
  if PyStr.contains "```" text
  then first_object (split "```" text)
  else None.

Definition _extract_json (text : string) : option string :=
  let text := str_strip text in
  match from_braces text with
  | Some json_str => Some json_str
  | None =>
      match from_json_fence text with
      | Some json_str => Some json_str
      | None =>
          match from_fence text with
          | Some part => Some part
          | None => if json_loads_ok text then Some text else None
          end
      end
  end.

(** The opening braces of [text] minus its closing braces. *)
Fixpoint brace_depth (text : string) : Z :=
  match text with
  | EmptyString => 0
  | String char rest =>
      (if Ascii.eqb char "{" then 1
       else if Ascii.eqb char "}" then -1 else 0)
      + brace_depth rest
  end.

End Extract.
End LLMClient.

(** The double quote. *)
Definition quote : string := String (ascii_of_nat 34) EmptyString.

(** A stand-in for [json.loads]: it accepts the JSON objects whose
    members are strings without escapes, blanks allowed around the
    tokens, and nothing else; every text it accepts is JSON. *)
Module FlatJson.

Inductive state :=
| Start | Opened | Key | AfterKey | BeforeValue | Value | AfterValue
| AfterComma | Closed | Bad.

Definition is_blank (a : ascii) : bool :=
  let n := nat_of_ascii a in
  Nat.eqb n 32 || Nat.eqb n 9 || Nat.eqb n 10 || Nat.eqb n 13.

Definition is_quote (a : ascii) : bool := Nat.eqb (nat_of_ascii a) 34.

(** Inside a string: the quote ends it, a backslash or a control
    character is refused. *)
Definition in_string (inside after : state) (a : ascii) : state :=
  if is_quote a then after
  else if Nat.eqb (nat_of_ascii a) 92 || Nat.ltb (nat_of_ascii a) 32
  then Bad
  else inside.

Definition step (st : state) (a : ascii) : state :=
  match st with
  | Start =>
      if is_blank a then Start else if Ascii.eqb a "{" then Opened else Bad
  | Opened =>
      if is_blank a then Opened
      else if is_quote a then Key
      else if Ascii.eqb a "}" then Closed else Bad
  | Key => in_string Key AfterKey a
  | AfterKey =>
      if is_blank a then AfterKey
      else if Ascii.eqb a ":" then BeforeValue else Bad
  | BeforeValue =>
      if is_blank a then BeforeValue else if is_quote a then Value else Bad
  | Value => in_string Value AfterValue a
  | AfterValue =>
      if is_blank a then AfterValue
      else if Ascii.eqb a "," then AfterComma
      else if Ascii.eqb a "}" then Closed else Bad
  | AfterComma =>
      if is_blank a then AfterComma else if is_quote a then Key else Bad
  | Closed => if is_blank a then Closed else Bad
  | Bad => Bad
  end.

Fixpoint run (st : state) (text : string) : state :=
  match text with
  | EmptyString => st
  | String a rest => run (step st a) rest
  end.

Definition accepts (text : string) : bool :=
  match run Start text with
  | Closed => true
  | _ => false
  end.

End FlatJson.

Definition flat_json : JsonLib := {| json_loads_ok := FlatJson.accepts |}.

(** The JSON text of an object with the one member [intent]. *)
Definition intent_object (i : string) : string :=
  "{" +:+ quote +:+ "intent" +:+ quote +:+ ": " +:+ quote +:+ i +:+ quote
  +:+ "}".

(** * Properties *)

(** ** Effects of the calendar client and of the handlers *)

Ltac unfold_monad :=
  unfold bind, ret, raise, lift, try_except, invoked, executed, reply_text,
    get_context, set_context, now, api_insert, api_list, api_delete,
    llm_parse in *.

Section Effects.
Context `{PyLib} `{CalendarService} `{LLMService}.
Variable cfg : Config.

Import CalendarClient MessageHandler.

Lemma delete_event_effect (e : string) (w : World) :
  exists b w',
    delete_event e w = (Ok b, w')
    /\ client_frame w w'
    /\ client_calls w' = client_calls w ++ [DeleteEvent e]
    /\ api_requests w' = api_requests w ++ [ApiDelete e].
Proof.
  unfold delete_event; unfold_monad; simpl.
  destruct (events_delete (cal w) e) as [[[]|] c'] eqn:E; simpl;
    eexists _, _; (split; [reflexivity|]); unfold client_frame; simpl;
    auto 10.
Qed.

Lemma in_list_affirmative_da : PyStr.in_list "да" affirmative = true.
Proof. reflexivity. Qed.

Lemma truthy_nonempty (s : string) : s <> "" -> PyStr.truthy s = true.
Proof.
  intros Hs. unfold PyStr.truthy.
  destruct (String.eqb_spec s ""); [contradiction | reflexivity].
Qed.

(** C2. With an awaiting-delete-confirmation state carrying the
    identifier [E], a reply normalizing to "да" calls the client's
    delete exactly once, with [E], and the state of that user is gone
    afterwards, whether the deletion succeeded or not. *)
Theorem C2_confirmed_delete_runs_once_and_clears
    (uid : Z) (text E : string) (cd : ContextData) (w : World) :
  clarification_context w !! uid = Some cd ->
  cd_waiting_delete_confirmation cd = Some true ->
  cd_event_id cd = Some E ->
  E <> "" ->
  str_strip (str_lower (str_strip text)) = "да" ->
  exists w',
    handle_message cfg uid text w = (Ok tt, w')
    /\ client_calls w' = client_calls w ++ [DeleteEvent E]
    /\ api_requests w' = api_requests w ++ [ApiDelete E]
    /\ clarification_context w' = delete uid (clarification_context w)
    /\ clarification_context w' !! uid = None
    /\ (outbox w' = outbox w ++ [(uid, delete_done_message)]
        \/ outbox w' = outbox w ++ [(uid, delete_failed_message)]).
Proof.
  intros Hctx Hflag Hid HE Hmsg.
  destruct (delete_event_effect E w) as (b & w1 & Hrun & Hf & Hc & Ha).
  destruct Hf as (Hf1 & Hf2 & _).
  unfold handle_message, _handle_clarification_response, del_context.
  unfold bind at 1. unfold get_context at 1. rewrite Hctx.
  unfold bind at 1. unfold get_context at 1.
  unfold bind at 1. rewrite Hctx. unfold lift at 1, ret at 1.
  rewrite Hflag, Hmsg, in_list_affirmative_da, Hid.
  cbv beta iota delta [default from_option id PyStr.truthy_opt].
  rewrite (truthy_nonempty E HE).
  unfold bind at 1. unfold bind at 1. rewrite Hrun.
  destruct b; unfold_monad; simpl; rewrite Hf1, Hctx; simpl;
    eexists; (split; [reflexivity|]); simpl;
    rewrite Hc, Ha, Hf2, lookup_delete_eq; auto 10.
Qed.

(** One case split on a call into the library or the service. *)
Ltac step :=
  match goal with
  | |- context [fromisoformat ?x] => destruct (fromisoformat x) eqn:?
  | |- context [strptime ?x ?y] => destruct (strptime x y) eqn:?
  | |- context [dt_tzinfo ?x] => destruct (dt_tzinfo x) eqn:?
  | |- context [ZoneInfo ?x] => destruct (ZoneInfo x) eqn:?
  | |- context [add_minutes ?x ?y] => destruct (add_minutes x y) eqn:?
  | |- context [PyStr.truthy ?x] => destruct (PyStr.truthy x) eqn:?
  | |- context [collect_participants ?x ?y] =>
      destruct (collect_participants x y) as [? ?] eqn:?
  | |- context [events_insert ?c ?b] =>
      destruct (events_insert c b) as [[?|] ?] eqn:?
  | |- context [events_list ?c ?a ?b] =>
      destruct (events_list c a b) as [[?|] ?] eqn:?
  | |- context [events_delete ?c ?a] =>
      destruct (events_delete c a) as [[?|] ?] eqn:?
  | |- context [match ?x with _ => _ end] => is_var x; destruct x
  end; simpl.

(** [_parse_datetime] reads the configuration only. *)
Lemma parse_datetime_pure (s : string) (w w0 : World) :
  _parse_datetime cfg s w = ((_parse_datetime cfg s w0).1, w).
Proof.
  unfold _parse_datetime, _get_timezone; unfold_monad.
  destruct (fromisoformat _); simpl;
    [|destruct (strptime _ _); simpl; [|reflexivity]];
    (destruct (dt_tzinfo _); simpl; [reflexivity|]);
    destruct (ZoneInfo _); reflexivity.
Qed.

Lemma create_event_effect (t s : string) (e d l : option string)
    (p : option (list string)) (w : World) :
  exists r w',
    create_event cfg t s e d l p w = (Ok r, w')
    /\ client_frame w w'
    /\ client_calls w' = client_calls w ++ [CreateEvent t s e d l p]
    /\ (api_requests w' = api_requests w
        \/ exists body, api_requests w' = api_requests w ++ [ApiInsert body]).
Proof.
  unfold create_event, _parse_datetime, _get_timezone, client_frame;
    unfold_monad; simpl.
  repeat step;
    eexists _, _; (split; [reflexivity|]); simpl; eauto 10.
Qed.

Lemma list_events_effect (d : string) (w : World) :
  exists evs w',
    list_events cfg d w = (Ok evs, w')
    /\ client_frame w w'
    /\ client_calls w' = client_calls w ++ [ListEvents d]
    /\ (api_requests w' = api_requests w
        \/ exists a b, api_requests w' = api_requests w ++ [ApiList a b]).
Proof.
  unfold list_events, _get_timezone, client_frame; unfold_monad; simpl.
  repeat step;
    eexists _, _; (split; [reflexivity|]); simpl; eauto 10.
Qed.

Lemma find_events_effect (t d : string) (w : World) :
  exists evs w',
    find_events_by_title_and_date cfg t d w = (Ok evs, w')
    /\ client_frame w w'
    /\ client_calls w' = client_calls w ++ [FindEvents t d; ListEvents d]
    /\ (api_requests w' = api_requests w
        \/ exists a b, api_requests w' = api_requests w ++ [ApiList a b]).
Proof.
  unfold find_events_by_title_and_date.
  unfold bind at 1, invoked at 1. unfold bind at 1.
  match goal with
  | |- context [list_events cfg d ?w1] =>
      destruct (list_events_effect d w1)
        as (evs & w' & Hrun & (F1 & F2 & F3 & F4) & Hc & Ha)
  end.
  rewrite Hrun. unfold ret. simpl in *.
  eexists _, _; (split; [reflexivity|]). unfold client_frame.
  rewrite Hc, <- app_assoc. simpl. auto 10.
Qed.

Lemma appended_reply (uid : Z) (m : string) (w w' : World)
    (calls : list ClientCall) (reqs : list ApiRequest) :
  outbox w' = outbox w ->
  client_calls w' = client_calls w ++ calls ->
  api_requests w' = api_requests w ++ reqs ->
  appended w (reply_text uid m w').2 [(uid, m)] calls reqs.
Proof. intros Ho Hc Ha. split; simpl; congruence. Qed.

Lemma handle_create_effect (uid : Z) (r : LLMResponseModel) (w : World) :
  exists w' m calls reqs,
    _handle_create cfg uid r w = (Ok tt, w')
    /\ clarification_context w' = clarification_context w
    /\ appended w w' [(uid, m)] calls reqs
    /\ no_prompt [(uid, m)]
    /\ no_delete calls reqs.
Proof.
  unfold _handle_create, no_prompt, no_delete.
  destruct (title (slots r)) as [t|], (start (slots r)) as [s|];
    try (eexists _, _, [], []; split; [reflexivity|]; simpl;
         repeat split; simpl; rewrite ?app_nil_r; auto; fail).
  destruct (negb (PyStr.truthy t) || negb (PyStr.truthy s));
    try (eexists _, _, [], []; split; [reflexivity|]; simpl;
         repeat split; simpl; rewrite ?app_nil_r; auto; fail).
  destruct (create_event_effect t s (end_ (slots r)) (description (slots r))
              (location (slots r)) (participants (slots r)) w)
    as (ev & w1 & Hrun & (F1 & F2 & _) & Hc & Ha).
  unfold bind. rewrite Hrun.
  destruct Ha as [Ha | [body Ha]]; destruct ev;
    eexists _, _, _, _; (split; [reflexivity|]); simpl;
    (split; [assumption|]);
    (split; [apply appended_reply; try eassumption;
             rewrite ?app_nil_r; eauto|]);
    repeat constructor.
  Unshelve. all: exact [].
Qed.

Lemma handle_list_effect (uid : Z) (r : LLMResponseModel) (w : World) :
  exists w' m calls reqs,
    _handle_list cfg uid r w = (Ok tt, w')
    /\ clarification_context w' = clarification_context w
    /\ appended w w' [(uid, m)] calls reqs
    /\ no_prompt [(uid, m)]
    /\ no_delete calls reqs.
Proof.
  unfold _handle_list, no_prompt, no_delete.
  destruct (target_date_of (slots r)) as [d|];
    try (eexists _, _, [], []; split; [reflexivity|]; simpl;
         repeat split; simpl; rewrite ?app_nil_r; auto; fail).
  destruct (PyStr.truthy d);
    try (eexists _, _, [], []; split; [reflexivity|]; simpl;
         repeat split; simpl; rewrite ?app_nil_r; auto; fail).
  destruct (list_events_effect d w)
    as (evs & w1 & Hrun & (F1 & F2 & _) & Hc & Ha).
  unfold bind. rewrite Hrun.
  destruct Ha as [Ha | (a & b & Ha)]; destruct evs;
    eexists _, _, _, _; (split; [reflexivity|]); simpl;
    (split; [assumption|]);
    (split; [apply appended_reply; try eassumption;
             rewrite ?app_nil_r; eauto|]);
    repeat constructor.
  Unshelve. all: exact [].
Qed.

Lemma delete_target_date_pure (s : SlotsModel) (w : World) :
  exists d, delete_target_date s w = (Ok d, w).
Proof.
  unfold delete_target_date; unfold_monad.
  destruct (target_date_of s) as [d|]; [destruct (PyStr.truthy d)|];
    eauto.
Qed.

Lemma handle_delete_by_title (uid : Z) (r : LLMResponseModel) (w : World)
    (t : string) :
  PyStr.truthy_opt (event_id (slots r)) = false ->
  title (slots r) = Some t ->
  PyStr.truthy t = true ->
  exists d evs w1,
    delete_target_date (slots r) w = (Ok d, w)
    /\ find_events_by_title_and_date cfg t d w = (Ok evs, w1)
    /\ client_frame w w1
    /\ client_calls w1 = client_calls w ++ [FindEvents t d; ListEvents d]
    /\ (api_requests w1 = api_requests w
        \/ exists a b, api_requests w1 = api_requests w ++ [ApiList a b])
    /\ _handle_delete cfg uid r w = after_search uid t d evs w1.
Proof.
  intros He Ht Htt.
  destruct (delete_target_date_pure (slots r) w) as [d Hd].
  destruct (find_events_effect t d w) as (evs & w1 & Hrun & Hf & Hc & Ha).
  exists d, evs, w1. repeat (split; [assumption|]).
  unfold _handle_delete. rewrite He, Ht, Htt.
  unfold bind at 1. rewrite Hd. unfold bind at 1. rewrite Hrun.
  unfold after_search. destruct evs as [|ev [|ev' evs]]; reflexivity.
Qed.

Lemma after_search_effect (uid : Z) (t d : string) (evs : list Event)
    (w : World) :
  exists res w' msgs,
    after_search uid t d evs w = (res, w')
    /\ (res = Ok tt \/ res = Raise TypeError)
    /\ (clarification_context w' = clarification_context w
        \/ exists e, clarification_context w'
                     = <[uid := awaiting_delete_confirmation e]>
                         (clarification_context w))
    /\ appended w w' msgs [] []
    /\ no_prompt msgs.
Proof.
  unfold after_search, no_prompt.
  destruct evs as [|ev [|ev' evs]].
  - eexists _, _, [_]; split; [reflexivity|]; simpl.
    repeat split; simpl; rewrite ?app_nil_r; auto.
  - eexists _, _, [_]; split; [reflexivity|]; simpl.
    repeat split; simpl; rewrite ?app_nil_r; eauto.
  - unfold bind, lift.
    destruct (candidate_lines 1 (ev :: ev' :: evs)) as [ls|].
    + eexists _, _, [_]; split; [reflexivity|]; simpl.
      repeat split; simpl; rewrite ?app_nil_r; auto.
    + eexists _, _, []; split; [reflexivity|]; simpl.
      repeat split; simpl; rewrite ?app_nil_r; auto.
Qed.

Lemma handle_delete_effect (uid : Z) (r : LLMResponseModel) (w : World) :
  exists res w' msgs calls reqs,
    _handle_delete cfg uid r w = (res, w')
    /\ (res = Ok tt \/ res = Raise TypeError)
    /\ (clarification_context w' = clarification_context w
        \/ exists e, clarification_context w'
                     = <[uid := awaiting_delete_confirmation e]>
                         (clarification_context w))
    /\ appended w w' msgs calls reqs
    /\ no_prompt msgs.
Proof.
  destruct (PyStr.truthy_opt (event_id (slots r))) eqn:He.
  - unfold _handle_delete. rewrite He.
    destruct (delete_event_effect (default "" (event_id (slots r))) w)
      as (b & w1 & Hrun & (F1 & F2 & _) & Hc & Ha).
    unfold bind. rewrite Hrun.
    destruct b; eexists _, _, _, _, _; (split; [reflexivity|]); simpl;
      (split; [auto|]); (split; [auto|]);
      (split; [apply appended_reply; eassumption|]);
      repeat constructor.
  - destruct (title (slots r)) as [t|] eqn:Ht;
      [destruct (PyStr.truthy t) eqn:Htt|].
    + destruct (handle_delete_by_title uid r w t He Ht Htt)
        as (d & evs & w1 & _ & _ & (F1 & F2 & _) & Hc & Ha & Heq).
      destruct (after_search_effect uid t d evs w1)
        as (res & w' & msgs & Hrun & Hres & Hctx & [Ao Ac Ar] & Hp).
      rewrite Heq, Hrun. rewrite app_nil_r in Ac, Ar.
      exists res, w', msgs, [FindEvents t d; ListEvents d].
      destruct Ha as [Ha | (a & b & Ha)];
        [exists [] | exists [ApiList a b]];
        (split; [reflexivity|]); (split; [assumption|]);
        (split; [rewrite <- F1; assumption|]);
        (split; [|assumption]);
        (split; [rewrite Ao, F2; reflexivity
                |rewrite Ac, Hc; reflexivity
                |rewrite Ar, Ha, ?app_nil_r; reflexivity]).
    + unfold _handle_delete. rewrite He, Ht, Htt.
      eexists _, _, [_], [], []; split; [reflexivity|]; simpl.
      unfold no_prompt.
      repeat split; simpl; rewrite ?app_nil_r; auto.
    + unfold _handle_delete. rewrite He, Ht.
      eexists _, _, [_], [], []; split; [reflexivity|]; simpl.
      unfold no_prompt.
      repeat split; simpl; rewrite ?app_nil_r; auto.
Qed.

Lemma prefix_append (p a b : string) :
  String.prefix p a = true -> String.prefix p (a +:+ b) = true.
Proof.
  revert a. induction p as [|c p IH]; intros a Hp;
    [destruct (a +:+ b); reflexivity|].
  destruct a as [|c' a]; simpl in *; [discriminate|].
  destruct (ascii_dec c c'); [auto | discriminate].
Qed.

Lemma prefix_refl (p : string) : String.prefix p p = true.
Proof.
  induction p as [|c p IH]; simpl; [reflexivity|].
  destruct (ascii_dec c c); [assumption | contradiction].
Qed.

Lemma prefix_join (p sep h : string) (l : list string) :
  String.prefix p h = true ->
  String.prefix p (PyStr.join sep (h :: l)) = true.
Proof.
  intros Hp. unfold PyStr.join. destruct l; simpl; [assumption|].
  apply (prefix_append p h _ Hp).
Qed.

Lemma confirmation_prompt_is_prompt (r : LLMResponseModel) :
  is_confirmation_prompt (confirmation_prompt r) = true.
Proof.
  unfold is_confirmation_prompt, confirmation_prompt, _format_confirmation.
  apply prefix_append. simpl app. apply prefix_join.
  apply prefix_append, prefix_refl.
Qed.

Lemma dispatch_effect (uid : Z) (r : LLMResponseModel) (w : World) :
  exists res w' msgs calls reqs,
    dispatch cfg uid r w = (res, w')
    /\ (res = Ok tt \/ res = Raise TypeError)
    /\ (clarification_context w' = clarification_context w
        \/ exists e, clarification_context w'
                     = <[uid := awaiting_delete_confirmation e]>
                         (clarification_context w))
    /\ appended w w' msgs calls reqs
    /\ no_prompt msgs.
Proof.
  unfold dispatch. destruct (intent r).
  - destruct (handle_create_effect uid r w)
      as (w' & m & calls & reqs & Hrun & Hctx & Happ & Hp & _).
    exists (Ok tt), w', [(uid, m)], calls, reqs. auto 10.
  - destruct (handle_list_effect uid r w)
      as (w' & m & calls & reqs & Hrun & Hctx & Happ & Hp & _).
    exists (Ok tt), w', [(uid, m)], calls, reqs. auto 10.
  - apply handle_delete_effect.
  - eexists _, _, [_], [], []; split; [reflexivity|]; simpl.
    unfold no_prompt.
    repeat split; simpl; rewrite ?app_nil_r; auto.
Qed.

Lemma format_confirmation_head (r : LLMResponseModel) :
  String.prefix "Я правильно понял, что нужно " (_format_confirmation r)
  = true.
Proof.
  unfold _format_confirmation. simpl app. apply prefix_join.
  apply prefix_append, prefix_refl.
Qed.

(** C1. For a fresh Intent Result that asks for no clarification, the
    engine stores an awaiting-intent-confirmation state and sends the
    yes/no confirmation prompt exactly when the confidence is strictly
    below the threshold.  The prompt is one message: it opens with
    "Я правильно понял, что нужно " and closes, after an empty line,
    with the question "Правильно ли я понял? (Да / Нет)".  Below the
    threshold nothing is dispatched (no call reaches the calendar); at
    or above it, equality included, the turn is the direct dispatch of
    the intent. *)
Theorem C1_confirmation_iff_strictly_below_threshold
    (uid : Z) (r : LLMResponseModel) (w : World) :
  needed (clarify r) = false ->
  clarification_context w !! uid = None ->
  exists res w' msgs calls reqs,
    _process_llm_response cfg uid r w = (res, w')
    /\ appended w w' msgs calls reqs
    /\ ((exists cd, clarification_context w' !! uid = Some cd
                    /\ cd_waiting_confirmation cd = Some true)
        <-> PrimFloat.ltb (confidence r) (LLM_CONFIDENCE_THRESHOLD cfg)
            = true)
    /\ ((exists m, (uid, m) ∈ msgs /\ is_confirmation_prompt m = true)
        <-> PrimFloat.ltb (confidence r) (LLM_CONFIDENCE_THRESHOLD cfg)
            = true)
    /\ (PrimFloat.ltb (confidence r) (LLM_CONFIDENCE_THRESHOLD cfg) = true ->
        res = Ok tt
        /\ clarification_context w'
           = <[uid := awaiting_confirmation (intent r) (slots r)]>
               (clarification_context w)
        /\ msgs = [(uid, confirmation_prompt r)]
        /\ (exists pre,
              msgs = [(uid, pre +:+ PyStr.NL +:+ PyStr.NL
                              +:+ "Правильно ли я понял? (Да / Нет)")]
              /\ String.prefix "Я правильно понял, что нужно " pre = true)
        /\ calls = [] /\ reqs = [] /\ cal w' = cal w)
    /\ (PrimFloat.ltb (confidence r) (LLM_CONFIDENCE_THRESHOLD cfg) = false ->
        (res, w') = dispatch cfg uid r w).
Proof.
  intros Hn Hfresh.
  unfold _process_llm_response, confidence_threshold. rewrite Hn.
  cbn [andb].
  destruct (PrimFloat.ltb (confidence r) (LLM_CONFIDENCE_THRESHOLD cfg))
    eqn:Hlt.
  - eexists _, _, [_], [], []; split; [reflexivity|]; simpl.
    split; [split; simpl; rewrite ?app_nil_r; reflexivity|].
    split; [split; [reflexivity|]; intros _; eexists; split;
            [apply lookup_insert_eq | reflexivity]|].
    split; [split; [reflexivity|]; intros _; eexists; split;
            [apply list_elem_of_singleton; reflexivity
            |apply confirmation_prompt_is_prompt]|].
    split; [|discriminate].
    intros _. do 3 (split; [reflexivity|]).
    split; [|auto].
    exists (_format_confirmation r).
    split; [reflexivity | apply format_confirmation_head].
  - fold (dispatch cfg uid r).
    destruct (dispatch_effect uid r w)
      as (res & w' & msgs & calls & reqs & Hrun & _ & Hctx & Happ & Hp).
    exists res, w', msgs, calls, reqs.
    split; [assumption|]. split; [assumption|].
    split; [|split; [|split; [discriminate | congruence]]].
    + split; [|discriminate].
      intros (cd & Hcd & Hflag). exfalso.
      destruct Hctx as [Hctx | [e Hctx]]; rewrite Hctx in Hcd.
      * congruence.
      * rewrite lookup_insert_eq in Hcd. inversion Hcd; subst.
        discriminate.
    + split; [|discriminate].
      intros (m & Hin & Hm). exfalso.
      unfold no_prompt in Hp. rewrite Forall_forall in Hp.
      apply Hp in Hin. simpl in Hin. congruence.
Qed.

Lemma append_assoc (a b c : string) : a +:+ (b +:+ c) = (a +:+ b) +:+ c.
Proof.
  induction a as [|x a IH]; [reflexivity|].
  change (String x (a +:+ (b +:+ c)) = String x ((a +:+ b) +:+ c)).
  f_equal. exact IH.
Qed.



(** C4, amended. For a fresh Intent Result with [clarify.needed] true
    and a non-empty question sequence, the next outbound message is the
    first question and an awaiting-clarification state holding the full
    sequence with cursor 0 is stored for that user. *)
Theorem C4_clarification_starts_at_first_question
    (uid : Z) (r : LLMResponseModel) (w : World) (q : string)
    (qs : list string) :
  needed (clarify r) = true ->
  questions (clarify r) = q :: qs ->
  exists w',
    _process_llm_response cfg uid r w = (Ok tt, w')
    /\ appended w w' [(uid, q)] [] []
    /\ clarification_context w'
       = <[uid := awaiting_clarification (intent r) (slots r) (q :: qs) 0]>
           (clarification_context w)
    /\ clarification_context w' !! uid
       = Some (awaiting_clarification (intent r) (slots r) (q :: qs) 0).
Proof.
  intros Hn Hq. unfold _process_llm_response. rewrite Hn, Hq.
  eexists; split; [reflexivity|]; simpl.
  split; [split; simpl; rewrite ?app_nil_r; reflexivity|].
  split; [reflexivity | apply lookup_insert_eq].
Qed.

(** C6. A create dispatch whose title or start is missing sends the
    validation message, which names the title and the start time, and
    makes no call to the calendar; with both present the client's
    create operation is called, once, with the slots. *)
Theorem C6_create_needs_title_and_start
    (uid : Z) (r : LLMResponseModel) (w : World) :
  (PyStr.truthy_opt (title (slots r)) = false
   \/ PyStr.truthy_opt (start (slots r)) = false ->
   exists w',
     _handle_create cfg uid r w = (Ok tt, w')
     /\ appended w w' [(uid, create_validation_message)] [] []
     /\ PyStr.contains "название и время начала" create_validation_message
        = true
     /\ cal w' = cal w)
  /\ (forall t s,
        title (slots r) = Some t -> PyStr.truthy t = true ->
        start (slots r) = Some s -> PyStr.truthy s = true ->
        exists w' m reqs,
          _handle_create cfg uid r w = (Ok tt, w')
          /\ appended w w' [(uid, m)]
               [CreateEvent t s (end_ (slots r)) (description (slots r))
                  (location (slots r)) (participants (slots r))]
               reqs).
Proof.
  split.
  - intros Hmiss. unfold _handle_create.
    assert (Hv : exists w',
               reply_text uid create_validation_message w = (Ok tt, w')
               /\ appended w w' [(uid, create_validation_message)] [] []
               /\ PyStr.contains "название и время начала"
                    create_validation_message = true
               /\ cal w' = cal w).
    { eexists; split; [reflexivity|]; simpl.
      split; [split; simpl; rewrite ?app_nil_r; reflexivity|].
      split; reflexivity. }
    destruct (title (slots r)) as [t|], (start (slots r)) as [s|];
      try exact Hv.
    simpl in Hmiss.
    destruct Hmiss as [-> | ->]; simpl; rewrite ?orb_true_r; exact Hv.
  - intros t s Ht Htt Hs Hss. unfold _handle_create.
    rewrite Ht, Hs, Htt, Hss. cbn [negb orb].
    destruct (create_event_effect t s (end_ (slots r))
                (description (slots r)) (location (slots r))
                (participants (slots r)) w)
      as (ev & w1 & Hrun & (F1 & F2 & _) & Hc & Ha).
    unfold bind. rewrite Hrun.
    destruct Ha as [Ha | [body Ha]]; destruct ev;
      eexists _, _, _; (split; [reflexivity|]);
      apply appended_reply; try eassumption.
    all: rewrite Ha; symmetry; apply app_nil_r.
Qed.

(** [create_event] once both datetimes are known: one insert request
    with the body built from them. *)
Lemma create_event_inserts (t s : string) (e d l : option string)
    (p : option (list string)) (w : World) (sd ed : datetime) :
  (_parse_datetime cfg s w).1 = Ok sd ->
  (if PyStr.truthy_opt e
   then (_parse_datetime cfg (default "" e) w).1 = Ok ed
   else add_minutes sd (DEFAULT_EVENT_DURATION_MIN cfg) = Some ed) ->
  exists r w',
    create_event cfg t s e d l p w = (Ok r, w')
    /\ api_requests w'
       = api_requests w
         ++ [ApiInsert (make_event_body cfg t sd ed
                          (collect_participants p d).2 l
                          (collect_participants p d).1)].
Proof.
  intros Hs He. unfold create_event.
  unfold bind at 1, invoked at 1. unfold try_except.
  unfold bind at 1. rewrite (parse_datetime_pure s _ w), Hs.
  unfold bind at 1.
  match goal with
  | |- context [match e with Some _ => _ | None => _ end ?w1] =>
      assert (Hend : match e with
                     | Some e' =>
                         if PyStr.truthy e' then _parse_datetime cfg e'
                         else lift (add_minutes sd
                                      (DEFAULT_EVENT_DURATION_MIN cfg))
                                   OverflowError
                     | None =>
                         lift (add_minutes sd
                                 (DEFAULT_EVENT_DURATION_MIN cfg))
                              OverflowError
                     end w1 = (Ok ed, w1))
  end.
  { destruct e as [e'|]; simpl in He.
    - destruct (PyStr.truthy e').
      + rewrite (parse_datetime_pure e' _ w).
        cbv beta iota delta [default from_option id] in He.
        rewrite He. reflexivity.
      + rewrite He. reflexivity.
    - rewrite He. reflexivity. }
  rewrite Hend.
  destruct (collect_participants p d) as [atts desc].
  unfold bind, api_insert, executed, lift, ret, raise. simpl.
  destruct (events_insert (cal w) _) as [[ev|] c']; simpl;
    eexists _, _; split; reflexivity.
Qed.

(** C8. When the end slot is absent, the end time of the event sent to
    the calendar is the start time plus the configured default
    duration; when it is present, it is the end slot, parsed. *)
Theorem C8_end_is_start_plus_default_duration
    (t s : string) (e d l : option string) (p : option (list string))
    (w : World) (sd : datetime) :
  (_parse_datetime cfg s w).1 = Ok sd ->
  (forall ed,
      PyStr.truthy_opt e = false ->
      add_minutes sd (DEFAULT_EVENT_DURATION_MIN cfg) = Some ed ->
      exists r w' body,
        create_event cfg t s e d l p w = (Ok r, w')
        /\ api_requests w' = api_requests w ++ [ApiInsert body]
        /\ dateTime (body_start body) = Some (isoformat sd)
        /\ dateTime (body_end body) = Some (isoformat ed))
  /\ (forall e' ed,
        e = Some e' ->
        PyStr.truthy e' = true ->
        (_parse_datetime cfg e' w).1 = Ok ed ->
        exists r w' body,
          create_event cfg t s e d l p w = (Ok r, w')
          /\ api_requests w' = api_requests w ++ [ApiInsert body]
          /\ dateTime (body_start body) = Some (isoformat sd)
          /\ dateTime (body_end body) = Some (isoformat ed)).
Proof.
  intros Hs. split.
  - intros ed He Hadd.
    destruct (create_event_inserts t s e d l p w sd ed Hs)
      as (r & w' & Hrun & Hreq); [rewrite He; exact Hadd|].
    eexists r, w', _. split; [exact Hrun|]. split; [exact Hreq|].
    split; reflexivity.
  - intros e' ed -> Htt He.
    destruct (create_event_inserts t s (Some e') d l p w sd ed Hs)
      as (r & w' & Hrun & Hreq); [simpl; rewrite Htt; exact He|].
    eexists r, w', _. split; [exact Hrun|]. split; [exact Hreq|].
    split; reflexivity.
Qed.

Lemma candidate_lines_all (evs : list Event) (i : nat) :
  Forall (fun ev => is_Some (ev_id ev)) evs ->
  candidate_lines i evs = Some (candidate_listing i evs).
Proof.
  intros Hall. revert i.
  induction Hall as [|ev evs [e He] _ IH]; intros i; [reflexivity|].
  simpl. unfold candidate_line. rewrite He, IH. reflexivity.
Qed.

Lemma contains_append_l (n a b : string) :
  PyStr.contains n a = true -> PyStr.contains n (a +:+ b) = true.
Proof.
  induction a as [|c a IH].
  - simpl. rewrite orb_false_r. intros Hp.
    destruct n; [destruct b; reflexivity | discriminate].
  - intros Hc.
    change (String.prefix n (String c a) || PyStr.contains n a = true)
      in Hc.
    change (String.prefix n (String c a +:+ b)
            || PyStr.contains n (a +:+ b) = true).
    apply orb_true_iff in Hc as [Hp | Hc].
    + rewrite (prefix_append n (String c a) b Hp). reflexivity.
    + rewrite (IH Hc). apply orb_true_r.
Qed.

Lemma contains_append_r (n a b : string) :
  PyStr.contains n b = true -> PyStr.contains n (a +:+ b) = true.
Proof.
  intros Hb. induction a as [|c a IH]; [exact Hb|].
  change (String.prefix n (String c a +:+ b)
          || PyStr.contains n (a +:+ b) = true).
  rewrite IH. apply orb_true_r.
Qed.

Lemma contains_here (n b : string) : PyStr.contains n (n +:+ b) = true.
Proof.
  apply contains_append_l. destruct n as [|c n]; [reflexivity|].
  change (String.prefix (String c n) (String c n)
          || PyStr.contains (String c n) n = true).
  rewrite prefix_refl. reflexivity.
Qed.

(** Every event of [evs] has its entry in the listing: its summary
    followed by its identifier cut to eight characters. *)
Lemma candidate_listing_shows (ev : Event) (evs : list Event) :
  In ev evs ->
  forall i,
    PyStr.contains
      (default "Без названия" (ev_summary ev) +:+ " (ID: "
         +:+ PyStr.slice_to 8 (default "" (ev_id ev)) +:+ "...)")
      (candidate_listing i evs) = true.
Proof.
  induction evs as [|e rest IH]; intros Hin i; [destruct Hin|].
  cbn [candidate_listing]. destruct Hin as [-> | Hin].
  - apply contains_append_l. do 2 apply contains_append_r.
    repeat rewrite append_assoc. apply contains_here.
  - apply contains_append_r. apply IH, Hin.
Qed.

(** C9. When the title search returns two or more events, each with
    its identifier, the one reply names the title searched, lists every
    match on a numbered line with its summary and its identifier cut to
    eight characters, and closes by asking for an identifier; no state
    is stored, so the next message of that user is evaluated as fresh
    input. *)
Theorem C9_several_matches_are_listed_and_nothing_is_stored
    (uid : Z) (r : LLMResponseModel) (w w1 : World) (t d : string)
    (evs : list Event) :
  PyStr.truthy_opt (event_id (slots r)) = false ->
  title (slots r) = Some t ->
  PyStr.truthy t = true ->
  clarification_context w !! uid = None ->
  delete_target_date (slots r) w = (Ok d, w) ->
  find_events_by_title_and_date cfg t d w = (Ok evs, w1) ->
  (2 <= length evs)%nat ->
  Forall (fun ev => is_Some (ev_id ev)) evs ->
  exists w' m,
    _handle_delete cfg uid r w = (Ok tt, w')
    /\ outbox w' = outbox w ++ [(uid, m)]
    /\ m = "Найдено несколько событий с названием '" +:+ t +:+ "':"
           +:+ PyStr.NL +:+ PyStr.NL
           +:+ candidate_listing 1 evs +:+ PyStr.NL
           +:+ "Пожалуйста, укажите ID события для удаления."
    /\ (forall ev,
          In ev evs ->
          PyStr.contains
            (default "Без названия" (ev_summary ev) +:+ " (ID: "
               +:+ PyStr.slice_to 8 (default "" (ev_id ev)) +:+ "...)")
            m = true)
    /\ clarification_context w' = clarification_context w
    /\ clarification_context w' !! uid = None
    /\ forall text,
         handle_message cfg uid text w'
         = evaluate_fresh cfg uid (str_strip text) w'.
Proof.
  intros He Ht Htt Hfresh Hd Hfind Hlen Hids.
  destruct (handle_delete_by_title uid r w t He Ht Htt)
    as (d' & evs' & w1' & Hd' & Hfind' & (F1 & F2 & _) & _ & _ & Heq).
  rewrite Hd in Hd'. inversion Hd'; subst d'; clear Hd'.
  rewrite Hfind in Hfind'. inversion Hfind'; subst evs' w1'; clear Hfind'.
  rewrite Heq. unfold after_search.
  destruct evs as [|e1 [|e2 evs]]; simpl in Hlen; try lia.
  unfold bind, lift. rewrite (candidate_lines_all _ 1 Hids).
  eexists _, _; split; [reflexivity|]; simpl.
  split; [rewrite F2; reflexivity|].
  split; [reflexivity|].
  split; [intros ev Hin; do 5 apply contains_append_r;
          apply contains_append_l;
          exact (candidate_listing_shows ev (e1 :: e2 :: evs) Hin 1)|].
  split; [assumption|].
  split; [rewrite F1; assumption|].
  intros text. unfold handle_message, bind, get_context. simpl.
  rewrite F1, Hfresh. reflexivity.
Qed.

Lemma process_never_index_error (uid : Z) (r : LLMResponseModel) (w : World) :
  (_process_llm_response cfg uid r w).1 <> Raise IndexError.
Proof.
  unfold _process_llm_response.
  destruct (needed (clarify r)), (questions (clarify r)) as [|q qs];
    cbn [andb]; try (simpl; discriminate);
    (destruct (PrimFloat.ltb _ _); [simpl; discriminate|]);
    fold (dispatch cfg uid r);
    destruct (dispatch_effect uid r w)
      as (res & w' & ? & ? & ? & Hrun & [-> | ->] & _);
    rewrite Hrun; simpl; discriminate.
Qed.

(** C10. With [clarify.needed] true and no question, no
    awaiting-clarification state is stored and nothing is asked: the
    result is evaluated as one that needs no clarification (confidence
    check, then dispatch).  The first question is read only from a
    non-empty list, so no evaluation ends in [IndexError]. *)
Theorem C10_empty_questions_fall_through
    (uid : Z) (r : LLMResponseModel) (w : World) :
  needed (clarify r) = true ->
  questions (clarify r) = [] ->
  _process_llm_response cfg uid r w
  = _process_llm_response cfg uid (without_clarification r) w
  /\ (clarification_context w !! uid = None ->
      forall cd,
        clarification_context (_process_llm_response cfg uid r w).2 !! uid
        = Some cd ->
        cd_questions cd = None)
  /\ (forall r0 w0, (_process_llm_response cfg uid r0 w0).1 <> Raise IndexError).
Proof.
  intros Hn Hq.
  assert (Heq : _process_llm_response cfg uid r w
                = _process_llm_response cfg uid (without_clarification r) w).
  { unfold _process_llm_response. rewrite Hn, Hq. simpl.
    destruct (PrimFloat.ltb _ _); [reflexivity|].
    destruct (intent r) eqn:Hi; reflexivity. }
  split; [exact Heq|]. split; [|intros; apply process_never_index_error].
  intros Hfresh cd.
  unfold _process_llm_response. rewrite Hn, Hq. cbn [andb].
  destruct (PrimFloat.ltb _ _).
  - simpl. rewrite lookup_insert_eq. intros [= <-]. reflexivity.
  - fold (dispatch cfg uid r).
    destruct (dispatch_effect uid r w)
      as (res & w' & ? & ? & ? & Hrun & _ & [Hctx | [e Hctx]] & _);
      rewrite Hrun; simpl; rewrite Hctx.
    + congruence.
    + rewrite lookup_insert_eq. intros [= <-]. reflexivity.
Qed.

End Effects.


(** ** The statements at concrete inputs *)

Section Scenarios.
#[local] Existing Instances Fixture.py Fixture.calendar Fixture.model.
Import CalendarClient MessageHandler.

(** C1 at the boundary: with confidence 0.80 and threshold 0.80 no
    confirmation is asked and the create intent is dispatched; with
    confidence 0.5 the one message sent closes with the yes/no
    question and the calendar is not called. *)
Lemma C1_witness_at_threshold :
  let r := result create 0x1.999999999999ap-1%float meeting_slots in
  let low := result create 0x1p-1%float meeting_slots in
  let w := Fixture.boot [] [] in
  let run := _process_llm_response Config_default 1 r w in
  let asked := _process_llm_response Config_default 1 low w in
  needed (clarify r) = false
  /\ clarification_context w !! 1 = None
  /\ clarification_context run.2 !! 1 = None
  /\ run = dispatch Config_default 1 r w
  /\ client_calls run.2
     = [CreateEvent "Встреча" moscow_3pm None None None None]
  /\ (exists pre,
        outbox asked.2
        = [(1, pre +:+ PyStr.NL +:+ PyStr.NL
                 +:+ "Правильно ли я понял? (Да / Нет)")])
  /\ client_calls asked.2 = [].
Proof.
  intros r low w run asked.
  destruct (C1_confirmation_iff_strictly_below_threshold
              Config_default 1 r w eq_refl eq_refl)
    as (res & w' & msgs & calls & reqs & Hrun & Happ & Hst & Hpr & Hlt & Hge).
  destruct (C1_confirmation_iff_strictly_below_threshold
              Config_default 1 low w eq_refl eq_refl)
    as (res2 & w2 & msgs2 & calls2 & reqs2 & Hrun2 & [Ho2 Hc2 _] & _ & _
        & Hlow & _).
  destruct (Hlow eq_refl) as (_ & _ & _ & (pre & Hmsgs & _) & Hcalls & _).
  split; [reflexivity|]. split; [reflexivity|].
  split; [vm_compute; reflexivity|].
  split; [unfold run; rewrite Hrun; apply Hge; reflexivity|].
  split; [vm_compute; reflexivity|].
  unfold asked. rewrite Hrun2. simpl.
  split; [exists pre; rewrite Ho2, Hmsgs; reflexivity|].
  rewrite Hc2, Hcalls. reflexivity.
Defined.

(** C2 on a stored event: the reply " Да " deletes it, once. *)
Lemma C2_witness_yes_deletes :
  let cd := awaiting_delete_confirmation (Some "evt0a1b2c3d4e5") in
  let w := pending 1 cd [vadim] in
  str_strip (str_lower (str_strip " Да ")) = "да"
  /\ exists w',
       handle_message Config_default 1 " Да " w = (Ok tt, w')
       /\ client_calls w' = [DeleteEvent "evt0a1b2c3d4e5"]
       /\ api_requests w' = [ApiDelete "evt0a1b2c3d4e5"]
       /\ clarification_context w' !! 1 = None.
Proof.
  intros cd w. split; [reflexivity|].
  destruct (C2_confirmed_delete_runs_once_and_clears Config_default 1
              " Да " "evt0a1b2c3d4e5" cd w)
    as (w' & Hrun & Hc & Ha & _ & Hnone & _);
    [reflexivity | reflexivity | reflexivity | discriminate | reflexivity|].
  exists w'. auto.
Defined.


(** C4 fails when [clarify.needed] is true and the question list is
    empty: nothing is asked and no state is stored; the unknown intent
    gets the help text. *)
Lemma C4_counterexample_needed_without_questions :
  let r := ask unknown 0x1.ccccccccccccdp-1%float SlotsModel_default [] in
  let w := Fixture.boot [] [] in
  ~ first_question_always_asked Config_default 1 r w
  /\ _process_llm_response Config_default 1 r w
     = reply_text 1 help_message w
  /\ clarification_context (_process_llm_response Config_default 1 r w).2
     = ∅.
Proof.
  intros r w. split; [|split; reflexivity].
  intros Hclaim. destruct (Hclaim eq_refl) as (q & w' & Hq & _).
  discriminate Hq.
Qed.

Lemma C4_witness_two_questions :
  let r := ask create 0x1.ccccccccccccdp-1%float SlotsModel_default
             ["Как назвать событие?"; "Во сколько?"] in
  let w := Fixture.boot [] [] in
  exists w',
    _process_llm_response Config_default 1 r w = (Ok tt, w')
    /\ outbox w' = [(1, "Как назвать событие?")]
    /\ clarification_context w' !! 1
       = Some (awaiting_clarification create SlotsModel_default
                 ["Как назвать событие?"; "Во сколько?"] 0).
Proof.
  intros r w.
  destruct (C4_clarification_starts_at_first_question Config_default 1 r w
              "Как назвать событие?" ["Во сколько?"] eq_refl eq_refl)
    as (w' & Hrun & [Ho _ _] & _ & Hst).
  exists w'. auto.
Defined.

(** C5 at the stored intent "unknown": after "да" the state is cleared
    and nothing is sent, while the direct dispatch of the same Intent
    Result sends the help text. *)
Lemma C5_confirmed_unknown_intent_gets_no_reply :
  let w := pending 1 (awaiting_confirmation unknown SlotsModel_default) [] in
  let r := result unknown 1%float SlotsModel_default in
  let confirmed := handle_message Config_default 1 "да" w in
  let direct := _process_llm_response Config_default 1 r (Fixture.boot [] []) in
  confirmed.1 = Ok tt
  /\ outbox confirmed.2 = []
  /\ clarification_context confirmed.2 !! 1 = None
  /\ direct.1 = Ok tt
  /\ outbox direct.2 = [(1, help_message)].
Proof. repeat split; vm_compute; reflexivity. Qed.

(** C7 on the code: with a name and an address, the address is an
    attendee and is also written to the description; with two names,
    the labelled list is written twice. *)
Lemma C7_description_lists_every_participant_once_per_name :
  created_with ["Вадим"; "anna@example.com"]
  = Some (Some "Участники: Вадим, anna@example.com",
          Some ["anna@example.com"])
  /\ created_with ["Вадим"; "Анна"]
     = Some (Some ("Участники: Вадим, Анна" +:+ PyStr.NL
                     +:+ "Участники: Вадим, Анна"),
             None).
Proof. split; vm_compute; reflexivity. Qed.

Lemma C6_witness_missing_and_present :
  let w := Fixture.boot [] [] in
  (exists w',
      _handle_create Config_default 1
        (result create 1%float SlotsModel_default) w = (Ok tt, w')
      /\ outbox w' = [(1, create_validation_message)]
      /\ client_calls w' = [] /\ api_requests w' = [])
  /\ (exists w' m reqs,
        _handle_create Config_default 1
          (result create 1%float meeting_slots) w = (Ok tt, w')
        /\ appended w w' [(1, m)]
             [CreateEvent "Встреча" moscow_3pm None None None None] reqs).
Proof.
  intros w. split.
  - destruct (proj1 (C6_create_needs_title_and_start Config_default 1
                       (result create 1%float SlotsModel_default) w)
                (or_introl eq_refl))
      as (w' & Hrun & [Ho Hc Ha] & _).
    exists w'. auto.
  - exact (proj2 (C6_create_needs_title_and_start Config_default 1
                    (result create 1%float meeting_slots) w)
             "Встреча" moscow_3pm eq_refl eq_refl eq_refl eq_refl).
Defined.

(** C8 on the scenario of the specification: a meeting at 15:00 with no
    end is sent with the end 16:00; an end of 17:30 is sent as given. *)
Lemma C8_witness_one_hour_by_default :
  let w := Fixture.boot [] [] in
  (exists r w' body,
      create_event Config_default "Встреча" moscow_3pm None None None None w
      = (Ok r, w')
      /\ api_requests w' = [ApiInsert body]
      /\ dateTime (body_start body) = Some "2025-11-27T15:00:00+03:00"
      /\ dateTime (body_end body) = Some "2025-11-27T16:00:00+03:00")
  /\ (exists r w' body,
        create_event Config_default "Встреча" moscow_3pm
          (Some "2025-11-27T17:30:00+03:00") None None None w
        = (Ok r, w')
        /\ api_requests w' = [ApiInsert body]
        /\ dateTime (body_end body) = Some "2025-11-27T17:30:00+03:00").
Proof.
  intros w. split.
  - exact (proj1 (C8_end_is_start_plus_default_duration Config_default
                    "Встреча" moscow_3pm None None None None w at_3pm
                    eq_refl)
             at_4pm eq_refl eq_refl).
  - destruct (proj2 (C8_end_is_start_plus_default_duration Config_default
                       "Встреча" moscow_3pm
                       (Some "2025-11-27T17:30:00+03:00") None None None w
                       at_3pm eq_refl)
                "2025-11-27T17:30:00+03:00"
                {| Fixture.year := 2025; Fixture.month := 11;
                   Fixture.day := 27; Fixture.hour := 17;
                   Fixture.minute := 30; Fixture.second := 0;
                   Fixture.microsecond := 0; Fixture.offset := Some 180 |}
                eq_refl eq_refl eq_refl)
      as (r & w' & body & Hrun & Hreq & _ & Hend).
    exists r, w', body. auto.
Defined.

(** C9 on a calendar with two matching events: both are listed in
    the message sent, each with its identifier cut short. *)
Lemma C9_witness_two_matches :
  let w := Fixture.boot [vadim; anna] [] in
  let r := result delete_ 1%float (by_title "встреча") in
  exists w' m,
    _handle_delete Config_default 1 r w = (Ok tt, w')
    /\ outbox w' = [(1, m)]
    /\ String.prefix "Найдено несколько событий с названием 'встреча':" m
       = true
    /\ PyStr.contains "1. Встреча с Вадимом (ID: evt0a1b2...)" m = true
    /\ PyStr.contains "2. Встреча с Анной (ID: evt1f6g7...)" m = true
    /\ PyStr.contains "Пожалуйста, укажите ID события для удаления." m
       = true
    /\ clarification_context w' !! 1 = None
    /\ handle_message Config_default 1 "привет" w'
       = evaluate_fresh Config_default 1 "привет" w'.
Proof.
  intros w r.
  destruct (C9_several_matches_are_listed_and_nothing_is_stored
              Config_default 1 r w
              (find_events_by_title_and_date Config_default "встреча"
                 "2025-11-27" w).2
              "встреча" "2025-11-27" [vadim; anna])
    as (w' & m & Hrun & Hout & Hm & _ & _ & Hnone & Hnext);
    [reflexivity | reflexivity | reflexivity | reflexivity
    | reflexivity
    | assert (E : (find_events_by_title_and_date Config_default "встреча"
                     "2025-11-27" w).1 = Ok [vadim; anna])
        by (vm_compute; reflexivity);
      rewrite <- E; apply surjective_pairing
    | simpl; lia
    | repeat constructor; eexists; reflexivity |].
  exists w', m. split; [exact Hrun|]. split; [exact Hout|].
  rewrite Hm.
  do 4 (split; [vm_compute; reflexivity|]).
  split; [exact Hnone|]. exact (Hnext "привет").
Defined.

(** C10 on a result that needs clarification but has no question. *)
Lemma C10_witness_no_question :
  let r := ask create 0x1.ccccccccccccdp-1%float meeting_slots [] in
  let w := Fixture.boot [] [] in
  _process_llm_response Config_default 1 r w
  = _process_llm_response Config_default 1 (without_clarification r) w
  /\ client_calls (_process_llm_response Config_default 1 r w).2
     = [CreateEvent "Встреча" moscow_3pm None None None None].
Proof.
  intros r w. split; [|vm_compute; reflexivity].
  exact (proj1 (C10_empty_questions_fall_through Config_default 1 r w
                  eq_refl eq_refl)).
Defined.

End Scenarios.

(** * The rest of the calendar client and of the dialogue *)

(** ** The calendar client *)

Section ClientProperties.
Context `{PyLib} `{CalendarService} `{LLMService}.
Variable cfg : Config.

Import CalendarClient MessageHandler.

(** One case split on a call into the library or the service. *)
Ltac case_step :=
  match goal with
  | |- context [fromisoformat ?x] => destruct (fromisoformat x) eqn:?
  | |- context [strptime ?x ?y] => destruct (strptime x y) eqn:?
  | |- context [dt_tzinfo ?x] => destruct (dt_tzinfo x) eqn:?
  | |- context [ZoneInfo ?x] => destruct (ZoneInfo x) eqn:?
  | |- context [add_minutes ?x ?y] => destruct (add_minutes x y) eqn:?
  | |- context [PyStr.truthy ?x] => destruct (PyStr.truthy x) eqn:?
  | |- context [collect_participants ?x ?y] =>
      destruct (collect_participants x y) as [? ?] eqn:?
  | |- context [events_insert ?c ?b] =>
      destruct (events_insert c b) as [[?|] ?] eqn:?
  | |- context [events_list ?c ?a ?b] =>
      destruct (events_list c a b) as [[?|] ?] eqn:?
  | |- context [events_delete ?c ?a] =>
      destruct (events_delete c a) as [[?|] ?] eqn:?
  | |- context [match ?x with _ => _ end] => is_var x; destruct x
  end; simpl.

Lemma create_event_shape (t s : string) (e d l : option string)
    (p : option (list string)) (w : World) :
  exists r w',
    create_event cfg t s e d l p w = (Ok r, w')
    /\ after_call (CreateEvent t s e d l p) w w'.
Proof.
  unfold create_event, _parse_datetime, _get_timezone, after_call;
    unfold_monad; simpl.
  repeat case_step;
    eexists _, _; (split; [reflexivity|]); eauto.
Qed.

Lemma list_events_shape (d : string) (w : World) :
  exists evs w',
    list_events cfg d w = (Ok evs, w')
    /\ after_call (ListEvents d) w w'.
Proof.
  unfold list_events, _get_timezone, after_call; unfold_monad; simpl.
  repeat case_step;
    eexists _, _; (split; [reflexivity|]); eauto.
Qed.

Lemma delete_event_shape (e : string) (w : World) :
  delete_event e w
  = (Ok (bool_decide (is_Some (events_delete (cal w) e).1)),
     (executed (ApiDelete e) (events_delete (cal w) e).2
        (invoked (DeleteEvent e) w).2).2).
Proof.
  unfold delete_event; unfold_monad; simpl.
  destruct (events_delete (cal w) e) as [[[]|] c']; reflexivity.
Qed.

Lemma parse_datetime_world (s : string) (w : World) :
  (_parse_datetime cfg s w).2 = w.
Proof.
  unfold _parse_datetime, _get_timezone; unfold_monad.
  repeat case_step; reflexivity.
Qed.

(** X1. A start that the client cannot read: [create_event] raises
    nothing and returns [None]; the call is logged, no request reaches
    the service and the calendar is as before. *)
Theorem create_event_unreadable_start_sends_nothing
    (t s : string) (e d l : option string) (p : option (list string))
    (w : World) (x : PyExn) :
  (_parse_datetime cfg s w).1 = Raise x ->
  exists w',
    create_event cfg t s e d l p w = (Ok None, w')
    /\ client_calls w' = client_calls w ++ [CreateEvent t s e d l p]
    /\ api_requests w' = api_requests w
    /\ cal w' = cal w
    /\ outbox w' = outbox w.
Proof.
  intros Hs. unfold create_event.
  unfold bind at 1, invoked at 1. unfold try_except, bind at 1.
  rewrite (parse_datetime_pure cfg s _ w).
  destruct (_parse_datetime cfg s w) as [res w0]; simpl in Hs; subst res.
  eexists; split; [reflexivity|]. simpl. auto.
Qed.

(** X2. [create_event] never raises. It returns an event only when the
    service stored it, and that event is the answer of the service to
    the one insert request sent; it returns [None] when no request was
    sent or when the service refused the request. *)
Theorem create_event_returns_what_the_service_stored
    (t s : string) (e d l : option string) (p : option (list string))
    (w : World) :
  exists r w',
    create_event cfg t s e d l p w = (Ok r, w')
    /\ match r with
       | Some ev =>
           exists body,
             events_insert (cal w) body = (Some ev, cal w')
             /\ api_requests w' = api_requests w ++ [ApiInsert body]
             /\ body_summary body = t
       | None =>
           (cal w' = cal w /\ api_requests w' = api_requests w)
           \/ exists body,
                events_insert (cal w) body = (None, cal w')
                /\ api_requests w' = api_requests w ++ [ApiInsert body]
       end.
Proof.
  unfold create_event, _parse_datetime, _get_timezone; unfold_monad; simpl.
  repeat case_step;
    eexists _, _; (split; [reflexivity|]); simpl; eauto 10.
Qed.

Lemma fold_participants (all ps atts : list string) (desc : option string) :
  (fold_left (participant_step all) ps (atts, desc)).1
  = atts ++ List.filter (PyStr.contains "@") ps.
Proof.
  revert atts desc. induction ps as [|x ps IH]; intros atts desc; simpl.
  - symmetry. apply app_nil_r.
  - destruct (PyStr.contains "@" x) eqn:Hx.
    + rewrite IH, <- app_assoc. reflexivity.
    + destruct desc as [dd|]; [destruct (PyStr.truthy dd)|]; apply IH.
Qed.

Lemma fold_participants_addresses (all ps atts : list string)
    (desc : option string) :
  Forall (fun x => PyStr.contains "@" x = true) ps ->
  (fold_left (participant_step all) ps (atts, desc)).2 = desc.
Proof.
  intros Hall. revert atts.
  induction Hall as [|x ps Hx _ IH]; intros atts; simpl; [reflexivity|].
  rewrite Hx. apply IH.
Qed.

(** X3. Once the datetimes are read, the one insert request of
    [create_event] carries as attendees exactly the participants that
    hold an "@", in their order (no attendees key when there is none);
    when every participant holds one, the description goes out as it was
    given, and is left out when it is missing or empty. *)
Theorem attendees_are_the_addresses
    (t s : string) (e d l : option string) (p : option (list string))
    (w : World) (sd ed : datetime) :
  (_parse_datetime cfg s w).1 = Ok sd ->
  (if PyStr.truthy_opt e
   then (_parse_datetime cfg (default "" e) w).1 = Ok ed
   else add_minutes sd (DEFAULT_EVENT_DURATION_MIN cfg) = Some ed) ->
  exists r w' body,
    create_event cfg t s e d l p w = (Ok r, w')
    /\ api_requests w' = api_requests w ++ [ApiInsert body]
    /\ body_attendees body
       = match List.filter (PyStr.contains "@") (default [] p) with
         | [] => None
         | a :: rest => Some (a :: rest)
         end
    /\ (Forall (fun x => PyStr.contains "@" x = true) (default [] p) ->
        body_description body = if PyStr.truthy_opt d then d else None).
Proof.
  intros Hs He.
  destruct (create_event_inserts cfg t s e d l p w sd ed Hs He)
    as (r & w' & Hrun & Hreq).
  eexists r, w', _. split; [exact Hrun|]. split; [exact Hreq|].
  assert (Hatt : (collect_participants p d).1
                 = List.filter (PyStr.contains "@") (default [] p)).
  { destruct p as [[|x ps]|]; try reflexivity.
    apply (fold_participants (x :: ps) (x :: ps) [] d). }
  split.
  - cbn [make_event_body body_attendees]. rewrite Hatt.
    destruct (List.filter _ _); reflexivity.
  - intros Hall. cbn [make_event_body body_description].
    assert (Hdesc : (collect_participants p d).2 = d).
    { destruct p as [[|x ps]|]; try reflexivity.
      apply (fold_participants_addresses (x :: ps) (x :: ps) [] d Hall). }
    rewrite Hdesc. reflexivity.
Qed.

(** X4. A date that [list_events] cannot read is answered as a day
    without events: the client returns the empty list without a request,
    and [_handle_list] reports no events for the date as it was given.
    *)
Theorem unreadable_date_lists_as_empty_day
    (uid : Z) (r : LLMResponseModel) (d : string) (w : World) :
  target_date_of (slots r) = Some d ->
  PyStr.truthy d = true ->
  strptime d "%Y-%m-%d" = None ->
  exists w',
    _handle_list cfg uid r w = (Ok tt, w')
    /\ outbox w'
       = outbox w ++ [(uid, "📅 На " +:+ d
                              +:+ " нет запланированных событий.")]
    /\ client_calls w' = client_calls w ++ [ListEvents d]
    /\ api_requests w' = api_requests w.
Proof.
  intros Hd Ht Hp. unfold _handle_list. rewrite Hd, Ht.
  unfold list_events, _format_date_for_user. rewrite Hp.
  unfold_monad; simpl. eexists; split; [reflexivity|]. simpl. auto.
Qed.

(** X5. A failure of the service while listing is swallowed by the
    client: the user is told that the day has no events. *)
Theorem failed_listing_reads_as_empty_day
    (uid : Z) (r : LLMResponseModel) (d : string) (w : World) :
  target_date_of (slots r) = Some d ->
  PyStr.truthy d = true ->
  (forall a b, (events_list (cal w) a b).1 = None) ->
  exists w',
    _handle_list cfg uid r w = (Ok tt, w')
    /\ outbox w'
       = outbox w ++ [(uid, "📅 На " +:+ _format_date_for_user d
                              +:+ " нет запланированных событий.")].
Proof.
  intros Hd Ht Hdown. unfold _handle_list. rewrite Hd, Ht.
  unfold list_events, _get_timezone; unfold_monad; simpl.
  repeat match goal with
  | |- context [strptime d ?y] => destruct (strptime d y) eqn:?
  | |- context [ZoneInfo ?x] => destruct (ZoneInfo x) eqn:?
  end; simpl;
    try (eexists; split; reflexivity).
  match goal with
  | |- context [events_list ?c ?a ?b] =>
      pose proof (Hdown a b) as Hnone;
      destruct (events_list c a b) as [[?|] ?]; simpl in Hnone;
      [discriminate|]
  end.
  simpl. eexists; split; reflexivity.
Qed.

(** X6. A delete by title whose slots give no date searches the events
    of today, as the clock of the process reads it. *)
Theorem delete_by_title_without_date_searches_today
    (uid : Z) (r : LLMResponseModel) (t : string) (w : World) :
  PyStr.truthy_opt (event_id (slots r)) = false ->
  title (slots r) = Some t ->
  PyStr.truthy t = true ->
  target_date_of (slots r) = None ->
  let today := strftime (clock w) "%Y-%m-%d" in
  client_calls (_handle_delete cfg uid r w).2
  = client_calls w ++ [FindEvents t today; ListEvents today].
Proof.
  intros He Ht Htt Hnone today. subst today.
  destruct (handle_delete_by_title cfg uid r w t He Ht Htt)
    as (d & evs & w1 & Hd & _ & _ & Hc & _ & Heq).
  unfold delete_target_date in Hd. rewrite Hnone in Hd.
  unfold_monad. inversion Hd; subst d.
  destruct (after_search_effect uid t (strftime (clock w) "%Y-%m-%d")
              evs w1)
    as (res & w' & msgs & Hrun & _ & _ & [_ Ac _] & _).
  rewrite Heq, Hrun. simpl. rewrite Ac, app_nil_r. exact Hc.
Qed.

(** X7. A title search without a match: the user is told that nothing
    was found; nothing is stored and nothing is deleted. *)
Theorem delete_by_title_without_match_reports_not_found
    (uid : Z) (r : LLMResponseModel) (w w1 : World) (t d : string) :
  PyStr.truthy_opt (event_id (slots r)) = false ->
  title (slots r) = Some t ->
  PyStr.truthy t = true ->
  delete_target_date (slots r) w = (Ok d, w) ->
  find_events_by_title_and_date cfg t d w = (Ok [], w1) ->
  exists w',
    _handle_delete cfg uid r w = (Ok tt, w')
    /\ outbox w'
       = outbox w ++ [(uid, "Не найдено событий с названием '" +:+ t
                              +:+ "' на " +:+ _format_date_for_user d
                              +:+ ".")]
    /\ clarification_context w' = clarification_context w
    /\ client_calls w' = client_calls w ++ [FindEvents t d; ListEvents d].
Proof.
  intros He Ht Htt Hd Hfind.
  destruct (handle_delete_by_title cfg uid r w t He Ht Htt)
    as (d' & evs' & w1' & Hd' & Hfind' & (F1 & F2 & _) & Hc & _ & Heq).
  rewrite Hd in Hd'. inversion Hd'; subst d'; clear Hd'.
  rewrite Hfind in Hfind'. inversion Hfind'; subst evs' w1'; clear Hfind'.
  rewrite Heq. unfold after_search.
  eexists; split; [reflexivity|]. simpl.
  split; [rewrite F2; reflexivity|]. split; assumption.
Qed.

End ClientProperties.

(** ** Every handler stays within the chat of its user

    A relation [R] between the worlds before and after that holds
    across the steps a handler of [uid] takes holds across the
    handler. *)

Section Frame.
Context `{PyLib} `{CalendarService} `{LLMService} `{TelegramLib}.
Variable cfg : Config.
Variable uid : Z.

Import CalendarClient MessageHandler.

Variable R : World -> World -> Prop.
Hypothesis R_refl : forall w, R w w.
Hypothesis R_trans : forall w1 w2 w3, R w1 w2 -> R w2 w3 -> R w1 w3.
Hypothesis R_reply : forall m w, R w (reply_text uid m w).2.
Hypothesis R_invoked : forall c w, R w (invoked c w).2.
Hypothesis R_executed : forall q c w, R w (executed q c w).2.
Hypothesis R_drop : forall w, R w (drop_entry uid w).
Hypothesis R_clarification :
  forall i s q qs w, R w (put uid (awaiting_clarification i s (q :: qs) 0) w).
Hypothesis R_confirmation :
  forall i s w, R w (put uid (awaiting_confirmation i s) w).
Hypothesis R_delete_confirmation :
  forall e w, R w (put uid (awaiting_delete_confirmation e) w).
Hypothesis R_advanced :
  forall cd w,
    clarification_context w !! uid = Some cd ->
    default false (cd_waiting_delete_confirmation cd) = false ->
    default false (cd_waiting_confirmation cd) = false ->
    (default 0 (cd_current_question_index cd)
       <? Z.of_nat (length (default [] (cd_questions cd))) - 1) = true ->
    R w (put uid (advanced cd) w).

Lemma frame_bind {A B : Type} (m : M A) (k : A -> M B) (w : World) :
  R w (m w).2 ->
  (forall a, (m w).1 = Ok a -> R (m w).2 (k a (m w).2).2) ->
  R w (bind m k w).2.
Proof.
  unfold bind. destruct (m w) as [[a|e] w1]; simpl; intros Hm Hk;
    [eapply R_trans; [exact Hm | apply Hk; reflexivity] | exact Hm].
Qed.

Lemma frame_call (c : ClientCall) (w w' : World) :
  after_call c w w' -> R w w'.
Proof.
  intros [-> | (q & c' & ->)]; [apply R_invoked|].
  eapply R_trans; [apply R_invoked | apply R_executed].
Qed.

Lemma frame_create_event (t s : string) (e d l : option string)
    (p : option (list string)) (w : World) :
  R w (create_event cfg t s e d l p w).2.
Proof.
  destruct (create_event_shape cfg t s e d l p w) as (r & w' & -> & Hs).
  exact (frame_call _ _ _ Hs).
Qed.

Lemma frame_list_events (d : string) (w : World) :
  R w (list_events cfg d w).2.
Proof.
  destruct (list_events_shape cfg d w) as (r & w' & -> & Hs).
  exact (frame_call _ _ _ Hs).
Qed.

Lemma frame_delete_event (e : string) (w : World) :
  R w (delete_event e w).2.
Proof.
  rewrite delete_event_shape.
  exact (R_trans _ _ _ (R_invoked (DeleteEvent e) w)
           (R_executed (ApiDelete e) _ _)).
Qed.

Lemma frame_find_events (t d : string) (w : World) :
  R w (find_events_by_title_and_date cfg t d w).2.
Proof.
  unfold find_events_by_title_and_date.
  apply frame_bind; [apply R_invoked|]. intros _ _.
  apply frame_bind; [apply frame_list_events|]. intros evs _.
  apply R_refl.
Qed.

Lemma frame_handle_create (r : LLMResponseModel) (w : World) :
  R w (_handle_create cfg uid r w).2.
Proof.
  unfold _handle_create.
  destruct (title (slots r)) as [t|], (start (slots r)) as [s|];
    try apply R_reply.
  destruct (negb (PyStr.truthy t) || negb (PyStr.truthy s));
    [apply R_reply|].
  apply frame_bind; [apply frame_create_event|].
  intros [ev|] _; apply R_reply.
Qed.

Lemma frame_handle_list (r : LLMResponseModel) (w : World) :
  R w (_handle_list cfg uid r w).2.
Proof.
  unfold _handle_list.
  destruct (target_date_of (slots r)) as [d|]; [|apply R_reply].
  destruct (PyStr.truthy d); [|apply R_reply].
  apply frame_bind; [apply frame_list_events|].
  intros [|ev evs] _; apply R_reply.
Qed.

Lemma frame_handle_delete (r : LLMResponseModel) (w : World) :
  R w (_handle_delete cfg uid r w).2.
Proof.
  unfold _handle_delete.
  destruct (PyStr.truthy_opt (event_id (slots r))).
  - apply frame_bind; [apply frame_delete_event|].
    intros [|] _; apply R_reply.
  - destruct (title (slots r)) as [t|]; [|apply R_reply].
    destruct (PyStr.truthy t); [|apply R_reply].
    apply frame_bind.
    { destruct (delete_target_date_pure (slots r) w) as [d ->].
      apply R_refl. }
    intros d _.
    apply frame_bind; [apply frame_find_events|].
    intros [|ev [|ev' evs]] _.
    + apply R_reply.
    + match goal with |- R ?w1 _ => set (w0 := w1) end.
      eapply R_trans; [apply (R_delete_confirmation (ev_id ev) w0)|].
      apply R_reply.
    + apply frame_bind.
      * unfold lift. destruct (candidate_lines _ _); apply R_refl.
      * intros ls _. apply R_reply.
Qed.

Lemma frame_process (r : LLMResponseModel) (w : World) :
  R w (_process_llm_response cfg uid r w).2.
Proof.
  unfold _process_llm_response.
  destruct (needed (clarify r)), (questions (clarify r)) as [|q qs];
    cbn [andb].
  2: { eapply R_trans;
         [apply (R_clarification (intent r) (slots r) q qs w)|].
       apply R_reply. }
  all: destruct (PrimFloat.ltb _ _);
    [eapply R_trans; [apply (R_confirmation (intent r) (slots r) w)|];
     apply R_reply|];
    destruct (intent r);
    [apply frame_handle_create | apply frame_handle_list
     | apply frame_handle_delete | apply R_reply].
Qed.

Lemma frame_del_context (w : World) : R w (del_context uid w).2.
Proof.
  unfold del_context, bind, get_context.
  destruct (clarification_context w !! uid);
    [apply R_drop | apply R_refl].
Qed.

Lemma frame_clarification_response (msg : string) (w : World) :
  R w (_handle_clarification_response cfg uid msg w).2.
Proof.
  unfold _handle_clarification_response.
  unfold bind at 1, get_context at 1.
  unfold bind at 1, lift at 1.
  destruct (clarification_context w !! uid) as [cd|] eqn:Hcd;
    [|apply R_refl].
  unfold ret at 1.
  destruct (default false (cd_waiting_delete_confirmation cd)) eqn:Hwd.
  { destruct (PyStr.in_list _ affirmative).
    - apply frame_bind; [|intros _ _; apply frame_del_context].
      destruct (PyStr.truthy_opt (cd_event_id cd)); [|apply R_refl].
      apply frame_bind; [apply frame_delete_event|].
      intros [|] _; apply R_reply.
    - destruct (PyStr.in_list _ negative); [|apply R_reply].
      apply frame_bind; [apply frame_del_context|].
      intros _ _; apply R_reply. }
  destruct (default false (cd_waiting_confirmation cd)) eqn:Hwc.
  { destruct (PyStr.in_list _ affirmative).
    - apply frame_bind;
        [unfold lift; destruct (cd_slots cd); apply R_refl|].
      intros s _.
      apply frame_bind;
        [unfold lift; destruct (cd_intent cd); apply R_refl|].
      intros i _.
      apply frame_bind;
        [destruct (validate_datetime _ && validate_datetime _);
         apply R_refl|].
      intros _ _.
      apply frame_bind; [apply frame_del_context|].
      intros _ _.
      destruct i;
        [apply frame_handle_create | apply frame_handle_list
         | apply frame_handle_delete | apply R_refl].
    - destruct (PyStr.in_list _ negative); [|apply R_reply].
      apply frame_bind; [apply frame_del_context|].
      intros _ _; apply R_reply. }
  destruct (_ <? _) eqn:Hlt.
  - apply frame_bind; [exact (R_advanced cd w Hcd Hwd Hwc Hlt)|].
    intros _ _.
    apply frame_bind;
      [unfold lift; destruct (PyStr.index _ _); apply R_refl|].
    intros q _. apply R_reply.
  - apply frame_bind; [apply frame_del_context|].
    intros _ _.
    apply frame_bind; [apply R_reply|].
    intros _ _. apply R_reply.
Qed.

Hypothesis R_llm : forall t w, R w (llm_parse t w).2.

Lemma frame_handle_message (text : string) (w : World) :
  R w (handle_message cfg uid text w).2.
Proof.
  unfold handle_message, bind at 1, get_context at 1.
  destruct (clarification_context w !! uid).
  - apply frame_clarification_response.
  - unfold evaluate_fresh.
    apply frame_bind; [apply R_llm|].
    intros [r|] _; [apply frame_process | apply R_reply].
Qed.

Lemma frame_try {A : Type} (m : M A) (h : PyExn -> M A) (w : World) :
  R w (m w).2 ->
  (forall e, R (m w).2 (h e (m w).2).2) ->
  R w (try_except m h w).2.
Proof.
  unfold try_except. destruct (m w) as [[a|e] w1]; simpl; intros Hm Hh;
    [exact Hm | eapply R_trans; [exact Hm | apply Hh]].
Qed.

Lemma frame_set_message_text {B : Type} (k : M B) (w : World) :
  R w (k w).2 ->
  R w (bind Commands.set_message_text (fun _ => k) w).2.
Proof.
  intros Hk. unfold bind, Commands.set_message_text.
  destruct text_assignment; [exact Hk | apply R_refl].
Qed.

Lemma frame_process_update (u : Commands.Update) (w : World) :
  R w (Commands.process_update cfg uid u w).2.
Proof.
  unfold Commands.process_update.
  apply frame_try; [|intros e; apply R_reply].
  destruct u as [|text|text|text|text].
  - apply R_reply.
  - unfold Commands.handle_add.
    destruct (negb _); [apply R_reply | apply frame_handle_message].
  - unfold Commands.handle_view.
    destruct (negb _); [apply R_reply|].
    apply frame_set_message_text, frame_handle_message.
  - unfold Commands.handle_delete_command.
    destruct (negb _); [apply R_reply|].
    destruct (Commands.looks_like_id _).
    + apply frame_bind; [apply frame_delete_event|].
      intros [|] _; apply R_reply.
    + apply frame_set_message_text, frame_handle_message.
  - apply frame_handle_message.
Qed.

End Frame.

(** ** The users are kept apart, the store stays well formed *)

Section Invariants.
Context `{PyLib} `{CalendarService} `{LLMService} `{TelegramLib}.
Variable cfg : Config.

Import CalendarClient MessageHandler.

Lemma touches_only_refl (uid : Z) (w : World) : touches_only uid w w.
Proof.
  split; [reflexivity|]. exists []. split; [|constructor].
  symmetry. apply app_nil_r.
Qed.

Lemma touches_only_trans (uid : Z) (w1 w2 w3 : World) :
  touches_only uid w1 w2 -> touches_only uid w2 w3 -> touches_only uid w1 w3.
Proof.
  intros [Hs1 (m1 & Ho1 & Hm1)] [Hs2 (m2 & Ho2 & Hm2)]. split.
  - intros v Hv. rewrite (Hs2 v Hv). apply (Hs1 v Hv).
  - exists (m1 ++ m2). split; [|apply Forall_app; split; assumption].
    rewrite Ho2, Ho1, app_assoc. reflexivity.
Qed.

Lemma touches_only_silent (uid : Z) (w w' : World) :
  (forall v, v <> uid ->
             clarification_context w' !! v = clarification_context w !! v) ->
  outbox w' = outbox w ->
  touches_only uid w w'.
Proof.
  intros Hs Ho. split; [exact Hs|]. exists []. split; [|constructor].
  rewrite Ho. symmetry. apply app_nil_r.
Qed.

Ltac touches_step :=
  match goal with
  | |- touches_only _ ?w ?w => apply touches_only_refl
  | |- touches_only _ _ (reply_text _ _ _).2 =>
      split; [reflexivity|]; eexists; split; [reflexivity|];
      repeat constructor
  | |- touches_only _ _ (put _ _ _) =>
      apply touches_only_silent; [|reflexivity]; intros v Hv; simpl;
      apply lookup_insert_ne; congruence
  | |- touches_only _ _ (drop_entry _ _) =>
      apply touches_only_silent; [|reflexivity]; intros v Hv; simpl;
      apply lookup_delete_ne; congruence
  | |- touches_only _ _ (llm_parse ?t ?w).2 =>
      unfold llm_parse; destruct (parse_user_message (llm w) t);
      apply touches_only_silent; reflexivity
  | |- touches_only _ _ _ => apply touches_only_silent; reflexivity
  end.

(** One update of [uid] changes no pending state but that of [uid] and
    sends messages to [uid] only. *)
Lemma process_update_touches_only (uid : Z) (u : Commands.Update)
    (w : World) :
  touches_only uid w (Commands.process_update cfg uid u w).2.
Proof.
  apply (frame_process_update cfg uid (touches_only uid));
    try (intros; touches_step; fail).
  apply touches_only_trans.
Qed.

Lemma bystander_trans (v : Z) (w1 w2 w3 : World) :
  bystander v w1 w2 -> bystander v w2 w3 -> bystander v w1 w3.
Proof.
  intros [Hs1 (m1 & Ho1 & Hm1)] [Hs2 (m2 & Ho2 & Hm2)]. split.
  - rewrite Hs2. exact Hs1.
  - exists (m1 ++ m2). split; [|apply Forall_app; split; assumption].
    rewrite Ho2, Ho1, app_assoc. reflexivity.
Qed.

Lemma process_update_total (uid : Z) (u : Commands.Update) (w : World) :
  (Commands.process_update cfg uid u w).1 = Ok tt.
Proof.
  unfold Commands.process_update, try_except.
  match goal with
  | |- context [match ?m with _ => _ end] => destruct m as [[[]|e] w1]
  end; reflexivity.
Qed.

(** X8. Whatever the other users send, a user who sends nothing keeps
    their pending state and receives no message; the loop itself never
    ends in an exception. *)
Theorem silent_user_is_left_alone
    (v : Z) (updates : list (Z * Commands.Update)) (w : World) :
  Forall (fun p => p.1 <> v) updates ->
  (Commands.serve cfg updates w).1 = Ok tt
  /\ bystander v w (Commands.serve cfg updates w).2.
Proof.
  intros Hall. revert w.
  induction Hall as [|[uid u] rest Huid _ IH]; intros w; simpl.
  - split; [reflexivity|]. split; [reflexivity|].
    exists []. split; [symmetry; apply app_nil_r | constructor].
  - unfold bind.
    pose proof (process_update_total uid u w) as Hok.
    pose proof (process_update_touches_only uid u w) as [Hs (m & Ho & Hm)].
    destruct (Commands.process_update cfg uid u w) as [res w1].
    simpl in *. subst res.
    destruct (IH w1) as [Hres Hby]. split; [exact Hres|].
    apply (bystander_trans v w w1); [|exact Hby].
    split; [apply Hs; congruence|].
    exists m. split; [exact Ho|].
    eapply Forall_impl; [exact Hm|]. simpl. intros x ->. exact Huid.
Qed.

Lemma put_wf (uid : Z) (cd : ContextData) (w : World) :
  pending_shape cd -> store_wf w -> store_wf (put uid cd w).
Proof.
  intros Hcd Hw. unfold store_wf, put. simpl.
  apply map_Forall_insert_2; assumption.
Qed.

Lemma advanced_shape (cd : ContextData) :
  pending_shape cd ->
  default false (cd_waiting_delete_confirmation cd) = false ->
  default false (cd_waiting_confirmation cd) = false ->
  (default 0 (cd_current_question_index cd)
     <? Z.of_nat (length (default [] (cd_questions cd))) - 1) = true ->
  exists i s qs k,
    cd = awaiting_clarification i s qs k
    /\ 0 <= k /\ k + 1 < Z.of_nat (length qs)
    /\ advanced cd = awaiting_clarification i s qs (k + 1).
Proof.
  intros [i s qs k Hk|i s|e] Hwd Hwc Hlt; simpl in *; try discriminate.
  exists i, s, qs, k. apply Z.ltb_lt in Hlt.
  repeat split; [lia | lia].
Qed.

Lemma process_update_wf (uid : Z) (u : Commands.Update) (w : World) :
  store_wf w -> store_wf (Commands.process_update cfg uid u w).2.
Proof.
  apply (frame_process_update cfg uid
           (fun w w' => store_wf w -> store_wf w')); try (intros; tauto).
  - intros w0 Hw. unfold store_wf, drop_entry. simpl.
    apply map_Forall_delete, Hw.
  - intros i s q qs w0. apply put_wf. constructor. simpl. lia.
  - intros i s w0. apply put_wf. constructor.
  - intros e w0. apply put_wf. constructor.
  - intros cd w0 Hcd Hwd Hwc Hlt Hw.
    destruct (advanced_shape cd (Hw uid cd Hcd) Hwd Hwc Hlt)
      as (i & s & qs & k & _ & Hk0 & Hk1 & ->).
    apply put_wf; [|exact Hw]. constructor. lia.
  - intros t w0. unfold llm_parse.
    destruct (parse_user_message (llm w0) t). tauto.
Qed.

(** X9. Every pending state that the bot stores is one of the three
    dicts of [handlers.py], the cursor of a clarification inside its
    questions: a store of that form keeps it through every sequence of
    updates. *)
Theorem store_stays_well_formed
    (updates : list (Z * Commands.Update)) (w : World) :
  store_wf w ->
  store_wf (Commands.serve cfg updates w).2.
Proof.
  revert w. induction updates as [|[uid u] rest IH]; intros w Hw; simpl;
    [exact Hw|].
  unfold bind.
  pose proof (process_update_total uid u w) as Hok.
  pose proof (process_update_wf uid u w Hw) as Hw1.
  destruct (Commands.process_update cfg uid u w) as [res w1].
  simpl in *. subst res. apply IH, Hw1.
Qed.

End Invariants.

(** ** The replies to a pending question *)

Section Replies.
Context `{PyLib} `{CalendarService} `{LLMService}.
Variable cfg : Config.
Variable uid : Z.

Import CalendarClient MessageHandler.

Lemma pending_turn (text : string) (w : World) (cd : ContextData) :
  clarification_context w !! uid = Some cd ->
  handle_message cfg uid text w
  = _handle_clarification_response cfg uid (str_strip text) w.
Proof.
  intros Hcd. unfold handle_message, bind, get_context. rewrite Hcd.
  reflexivity.
Qed.

Lemma del_context_present (w : World) (cd : ContextData) :
  clarification_context w !! uid = Some cd ->
  del_context uid w = (Ok tt, drop_entry uid w).
Proof.
  intros Hcd. unfold del_context, bind, get_context. rewrite Hcd.
  reflexivity.
Qed.

Lemma no_is_not_yes (x : string) :
  PyStr.in_list x negative = true -> PyStr.in_list x affirmative = false.
Proof.
  unfold PyStr.in_list, negative, affirmative. simpl.
  rewrite !orb_false_r, !orb_true_iff.
  intros [E | [E | [E | E]]]; apply String.eqb_eq in E; subst x;
    reflexivity.
Qed.

(** X10. While a question is pending the language model is not
    consulted: whatever the user sends is taken as the answer. *)
Theorem pending_reply_is_not_parsed
    (text : string) (w : World) (cd : ContextData) :
  clarification_context w !! uid = Some cd ->
  llm (handle_message cfg uid text w).2 = llm w.
Proof.
  intros Hcd. rewrite (pending_turn text w cd Hcd).
  apply (frame_clarification_response cfg uid
           (fun w w' => llm w' = llm w)); try reflexivity.
  intros w1 w2 w3 H12 H23. congruence.
Qed.

(** X11. A reply that normalizes to one of the no words cancels a
    pending confirmation, of a delete or of a guessed intent: the state
    is removed, the user is told so, and neither the calendar nor the
    language model is used. *)
Theorem negative_reply_cancels
    (text : string) (w : World) (cd : ContextData) :
  clarification_context w !! uid = Some cd ->
  (cd_waiting_delete_confirmation cd = Some true
   \/ cd_waiting_confirmation cd = Some true) ->
  is_no text = true ->
  handle_message cfg uid text w
  = (Ok tt, (reply_text uid (declined_message cd) (drop_entry uid w)).2).
Proof.
  intros Hcd Hflag Hno. rewrite (pending_turn text w cd Hcd).
  unfold is_no, normalized in Hno.
  pose proof (no_is_not_yes _ Hno) as Hyes.
  unfold _handle_clarification_response, declined_message.
  unfold bind at 1, get_context at 1. unfold bind at 1.
  rewrite Hcd. unfold lift at 1, ret at 1.
  destruct (default false (cd_waiting_delete_confirmation cd)) eqn:Hwd.
  - rewrite Hyes, Hno. unfold bind.
    rewrite (del_context_present w cd Hcd). reflexivity.
  - destruct Hflag as [Hf | Hf]; rewrite Hf in *; [discriminate|].
    cbv beta iota delta [default from_option id].
    rewrite Hyes, Hno. unfold bind.
    rewrite (del_context_present w cd Hcd). reflexivity.
Qed.



Lemma confirmed_turn (text : string) (w : World) (i : Intent)
    (s : SlotsModel) :
  clarification_context w !! uid = Some (awaiting_confirmation i s) ->
  is_yes text = true ->
  handle_message cfg uid text w
  = if validate_datetime (start s) && validate_datetime (end_ s)
    then match i with
         | unknown => (Ok tt, drop_entry uid w)
         | _ => dispatch cfg uid (confirmed i s) (drop_entry uid w)
         end
    else (Raise ValueError, w).
Proof.
  intros Hcd Hyes. rewrite (pending_turn text w _ Hcd).
  unfold is_yes, normalized in Hyes.
  unfold _handle_clarification_response.
  unfold bind at 1, get_context at 1. unfold bind at 1.
  rewrite Hcd. unfold lift at 1, ret at 1.
  cbv beta iota delta
    [default from_option id awaiting_confirmation
     cd_waiting_delete_confirmation cd_waiting_confirmation cd_slots
     cd_intent cd_event_id].
  rewrite Hyes. unfold bind, lift, ret.
  destruct (validate_datetime (start s) && validate_datetime (end_ s));
    [|reflexivity].
  rewrite (del_context_present w _ Hcd).
  unfold dispatch, confirmed. destruct i; reflexivity.
Qed.

(** X13. A yes word to a guessed intent builds the Intent Result again
    from the stored slots. When the schema accepts them, the intent
    (create, list or delete) is run exactly as a direct dispatch would
    run it, in the world where the pending state is already removed, and
    no confirmation is asked a second time. When the schema rejects
    them, the turn ends in the validation error before anything is
    removed or sent. *)
Theorem confirmed_intent_is_dispatched
    (text : string) (w : World) (i : Intent) (s : SlotsModel) :
  clarification_context w !! uid = Some (awaiting_confirmation i s) ->
  is_yes text = true ->
  (SlotsModel_valid s ->
   i <> unknown ->
   handle_message cfg uid text w
   = dispatch cfg uid (confirmed i s) (drop_entry uid w)
   /\ exists msgs,
        outbox (handle_message cfg uid text w).2 = outbox w ++ msgs
        /\ no_prompt msgs)
  /\ (~ SlotsModel_valid s ->
      handle_message cfg uid text w = (Raise ValueError, w)).
Proof.
  intros Hcd Hyes. pose proof (confirmed_turn text w i s Hcd Hyes) as Hrun.
  split.
  - intros [Hv1 Hv2] Hi. rewrite Hv1, Hv2 in Hrun. cbn [andb] in Hrun.
    assert (Heq : handle_message cfg uid text w
                  = dispatch cfg uid (confirmed i s) (drop_entry uid w)).
    { rewrite Hrun. destruct i; try reflexivity. contradiction. }
    split; [exact Heq|]. rewrite Heq.
    destruct (dispatch_effect cfg uid (confirmed i s) (drop_entry uid w))
      as (res & w' & msgs & calls & reqs & Hd & _ & _ & [Ho _ _] & Hp).
    rewrite Hd. exists msgs. split; [exact Ho | exact Hp].
  - intros Hbad.
    destruct (validate_datetime (start s) && validate_datetime (end_ s))
      eqn:Hv; [|exact Hrun].
    exfalso. apply Hbad. apply andb_true_iff in Hv. exact Hv.
Qed.

(** X14. A yes word to a delete confirmation whose stored identifier is
    missing or empty removes the state and does nothing else: nothing is
    deleted and the user gets no answer. *)
Theorem confirmed_delete_without_id_is_silent
    (text : string) (w : World) (e : option string) :
  clarification_context w !! uid = Some (awaiting_delete_confirmation e) ->
  PyStr.truthy_opt e = false ->
  is_yes text = true ->
  handle_message cfg uid text w = (Ok tt, drop_entry uid w).
Proof.
  intros Hcd He Hyes. rewrite (pending_turn text w _ Hcd).
  unfold is_yes, normalized in Hyes.
  unfold _handle_clarification_response.
  unfold bind at 1, get_context at 1. unfold bind at 1.
  rewrite Hcd. unfold lift at 1, ret at 1.
  cbv beta iota delta
    [default from_option id awaiting_delete_confirmation
     cd_waiting_delete_confirmation cd_event_id].
  rewrite Hyes, He. unfold bind, ret.
  apply (del_context_present w _ Hcd).
Qed.

End Replies.

(** ** The clarification dialogue *)

Section Clarification.
Context `{PyLib} `{CalendarService} `{LLMService}.
Variable cfg : Config.
Variable uid : Z.

Import CalendarClient MessageHandler.

Lemma advance_turn (text : string) (w : World) (i : Intent)
    (s : SlotsModel) (qs : list string) (k : Z) (q : string) :
  clarification_context w !! uid = Some (awaiting_clarification i s qs k) ->
  0 <= k ->
  qs !! Z.to_nat (k + 1) = Some q ->
  handle_message cfg uid text w
  = (Ok tt,
     (reply_text uid q
        (put uid (awaiting_clarification i s qs (k + 1)) w)).2).
Proof.
  intros Hcd Hk Hq. rewrite (pending_turn cfg uid text w _ Hcd).
  pose proof (lookup_lt_Some _ _ _ Hq) as Hlt.
  unfold _handle_clarification_response.
  unfold bind at 1, get_context at 1. unfold bind at 1.
  rewrite Hcd. unfold lift at 1, ret at 1.
  cbv beta iota delta
    [default from_option id awaiting_clarification
     cd_waiting_delete_confirmation cd_waiting_confirmation cd_questions
     cd_current_question_index cd_slots cd_intent cd_event_id].
  replace (k <? Z.of_nat (length qs) - 1) with true
    by (symmetry; apply Z.ltb_lt; lia).
  unfold PyStr.index.
  replace (k + 1 <? 0) with false by (symmetry; apply Z.ltb_ge; lia).
  unfold bind, set_context, lift. rewrite Hq. reflexivity.
Qed.

Lemma last_turn (text : string) (w : World) (i : Intent)
    (s : SlotsModel) (qs : list string) (k : Z) :
  clarification_context w !! uid = Some (awaiting_clarification i s qs k) ->
  Z.of_nat (length qs) - 1 <= k ->
  handle_message cfg uid text w
  = (Ok tt,
     (reply_text uid "Пожалуйста, повторите ваш запрос с учетом уточнений."
        (reply_text uid "Спасибо за уточнения. Обрабатываю ваш запрос..."
           (drop_entry uid w)).2).2).
Proof.
  intros Hcd Hk. rewrite (pending_turn cfg uid text w _ Hcd).
  unfold _handle_clarification_response.
  unfold bind at 1, get_context at 1. unfold bind at 1.
  rewrite Hcd. unfold lift at 1, ret at 1.
  cbv beta iota delta
    [default from_option id awaiting_clarification
     cd_waiting_delete_confirmation cd_waiting_confirmation cd_questions
     cd_current_question_index cd_slots cd_intent cd_event_id].
  replace (k <? Z.of_nat (length qs) - 1) with false
    by (symmetry; apply Z.ltb_ge; lia).
  unfold bind. rewrite (del_context_present uid w _ Hcd). reflexivity.
Qed.

(** X15. An answer to a clarification question that is not the last one
    moves the cursor to the next question and sends it. The answer
    itself is not read: the stored slots stay as they were, whatever the
    text, and neither the model nor the calendar is used. *)
Theorem answer_moves_to_next_question
    (w : World) (i : Intent) (s : SlotsModel) (qs : list string) (k : Z) :
  clarification_context w !! uid = Some (awaiting_clarification i s qs k) ->
  0 <= k ->
  k + 1 < Z.of_nat (length qs) ->
  exists q,
    qs !! Z.to_nat (k + 1) = Some q
    /\ forall text,
         handle_message cfg uid text w
         = (Ok tt,
            (reply_text uid q
               (put uid (awaiting_clarification i s qs (k + 1)) w)).2).
Proof.
  intros Hcd Hk Hlt.
  destruct (lookup_lt_is_Some_2 qs (Z.to_nat (k + 1))) as [q Hq]; [lia|].
  exists q. split; [exact Hq|]. intros text.
  exact (advance_turn text w i s qs k q Hcd Hk Hq).
Qed.

Lemma clarification_rest (i : Intent) (s : SlotsModel) (qs : list string)
    (answers : list string) :
  forall (w : World) (k : Z),
    clarification_context w !! uid
    = Some (awaiting_clarification i s qs k) ->
    0 <= k ->
    answers <> [] ->
    (Z.to_nat k + length answers = length qs)%nat ->
    exists w',
      converse cfg uid answers w = (Ok tt, w')
      /\ clarification_context w' = delete uid (clarification_context w)
      /\ outbox w'
         = outbox w
           ++ map (pair uid)
                (drop (S (Z.to_nat k)) qs ++ clarification_closing)
      /\ llm w' = llm w
      /\ calendar_untouched w w'.
Proof.
  induction answers as [|a rest IH]; intros w k Hcd Hk Hne Hlen;
    [contradiction|].
  simpl. unfold bind at 1.
  destruct rest as [|a' rest'].
  - simpl in Hlen.
    rewrite (last_turn a w i s qs k Hcd) by lia.
    eexists; split; [reflexivity|]. simpl.
    rewrite drop_ge by lia. simpl. rewrite <- app_assoc.
    unfold calendar_untouched. simpl. auto 10.
  - simpl in Hlen.
    destruct (lookup_lt_is_Some_2 qs (Z.to_nat (k + 1))) as [q Hq]; [lia|].
    rewrite (advance_turn a w i s qs k q Hcd Hk Hq).
    match goal with
    | |- context [converse cfg uid _ ?w0] => set (w1 := w0)
    end.
    destruct (IH w1 (k + 1)) as (w' & Hrun & Hst & Hout & Hllm & Hcal).
    { subst w1. simpl. apply lookup_insert_eq. }
    { lia. }
    { discriminate. }
    { simpl. lia. }
    exists w'. split; [exact Hrun|].
    split; [rewrite Hst; subst w1; simpl; apply delete_insert_eq|].
    split.
    + rewrite Hout. subst w1. simpl. rewrite <- app_assoc. f_equal.
      replace (Z.to_nat (k + 1)) with (S (Z.to_nat k)) in * by lia.
      rewrite (drop_S qs q (S (Z.to_nat k)) Hq). reflexivity.
    + split; [rewrite Hllm; reflexivity|].
      destruct Hcal as (C1 & C2 & C3). unfold calendar_untouched.
      rewrite C1, C2, C3. subst w1. simpl. auto.
Qed.

(** X16. A whole clarification dialogue. When the model asks the
    questions [q :: qs] about a fresh message, the user is sent each
    question once, in order, one per answer, then the two closing
    messages; the pending state is gone, the model has been consulted
    once, for the first message only, and the calendar has not been
    called: the gathered answers lead to no action. *)
Theorem clarification_dialogue_ends_without_action
    (text : string) (answers : list string) (w : World)
    (r : LLMResponseModel) (q : string) (qs : list string) (l' : LLM) :
  clarification_context w !! uid = None ->
  parse_user_message (llm w) (str_strip text) = (Some r, l') ->
  needed (clarify r) = true ->
  questions (clarify r) = q :: qs ->
  length answers = length (q :: qs) ->
  exists w',
    converse cfg uid (text :: answers) w = (Ok tt, w')
    /\ outbox w'
       = outbox w ++ map (pair uid) ((q :: qs) ++ clarification_closing)
    /\ clarification_context w' = clarification_context w
    /\ llm w' = l'
    /\ calendar_untouched w w'.
Proof.
  intros Hfresh Hparse Hn Hq Hlen.
  cbn [converse]. unfold bind at 1.
  unfold handle_message at 1, bind at 1, get_context at 1.
  rewrite Hfresh.
  unfold evaluate_fresh, bind at 1, llm_parse at 1. rewrite Hparse.
  unfold _process_llm_response. rewrite Hn, Hq. cbn [andb].
  unfold bind at 1, get_context at 1. unfold bind at 1, set_context at 1.
  unfold bind at 1, lift at 1. cbn [PyStr.index Z.ltb Z.compare].
  change (Z.to_nat 0) with 0%nat. cbn [lookup list_lookup ret].
  unfold reply_text at 1.
  match goal with
  | |- context [converse cfg uid answers ?w0] => set (w1 := w0)
  end.
  destruct (clarification_rest (intent r) (slots r) (q :: qs) answers w1 0)
    as (w' & Hrun & Hst & Hout & Hllm & (C1 & C2 & C3)).
  { subst w1. simpl. apply lookup_insert_eq. }
  { lia. }
  { destruct answers; [discriminate Hlen | discriminate]. }
  { simpl. simpl in Hlen. lia. }
  exists w'. split; [exact Hrun|].
  split; [rewrite Hout; subst w1; simpl; rewrite <- app_assoc;
          reflexivity|].
  split; [rewrite Hst; subst w1; simpl;
          apply delete_insert_id; exact Hfresh|].
  split; [rewrite Hllm; reflexivity|].
  unfold calendar_untouched. rewrite C1, C2, C3. auto.
Qed.


End Clarification.

(** ** What a turn can raise *)

Section Exceptions.
Context `{PyLib} `{CalendarService} `{LLMService}.
Variable cfg : Config.
Variable uid : Z.

Import CalendarClient MessageHandler.

Lemma candidate_lines_missing (evs : list Event) (i : nat) :
  Exists (fun ev => ev_id ev = None) evs ->
  candidate_lines i evs = None.
Proof.
  intros Hex. revert i.
  induction Hex as [ev evs Hev | ev evs _ IH]; intros i; simpl;
    unfold candidate_line.
  - rewrite Hev. reflexivity.
  - destruct (ev_id ev); [rewrite IH|]; reflexivity.
Qed.

(** X18. When a title search returns several events and one of them has
    no identifier, the listing fails: [_handle_delete] ends in a
    [TypeError] after the search, having sent and stored nothing. *)
Theorem several_matches_with_missing_id_raise
    (r : LLMResponseModel) (w w1 : World) (t d : string)
    (evs : list Event) :
  PyStr.truthy_opt (event_id (slots r)) = false ->
  title (slots r) = Some t ->
  PyStr.truthy t = true ->
  delete_target_date (slots r) w = (Ok d, w) ->
  find_events_by_title_and_date cfg t d w = (Ok evs, w1) ->
  (2 <= length evs)%nat ->
  Exists (fun ev => ev_id ev = None) evs ->
  _handle_delete cfg uid r w = (Raise TypeError, w1)
  /\ outbox w1 = outbox w
  /\ clarification_context w1 = clarification_context w.
Proof.
  intros He Ht Htt Hd Hfind Hlen Hex.
  destruct (handle_delete_by_title cfg uid r w t He Ht Htt)
    as (d' & evs' & w1' & Hd' & Hfind' & (F1 & F2 & _) & _ & _ & Heq).
  rewrite Hd in Hd'. inversion Hd'; subst d'; clear Hd'.
  rewrite Hfind in Hfind'. inversion Hfind'; subst evs' w1'; clear Hfind'.
  rewrite Heq. unfold after_search.
  destruct evs as [|e1 [|e2 evs]]; simpl in Hlen; try lia.
  unfold bind, lift. rewrite (candidate_lines_missing _ 1 Hex).
  auto.
Qed.

Lemma process_result (r : LLMResponseModel) (w : World) :
  (_process_llm_response cfg uid r w).1 = Ok tt
  \/ (_process_llm_response cfg uid r w).1 = Raise TypeError.
Proof.
  unfold _process_llm_response.
  destruct (needed (clarify r)), (questions (clarify r)) as [|q qs];
    cbn [andb]; try (left; reflexivity);
    (destruct (PrimFloat.ltb _ _); [left; reflexivity|]);
    fold (dispatch cfg uid r);
    destruct (dispatch_effect cfg uid r w)
      as (res & w' & ? & ? & ? & Hrun & [-> | ->] & _);
    rewrite Hrun; auto.
Qed.

Lemma confirmed_result (i : Intent) (s : SlotsModel) (w : World) :
  let temp := {| intent := i; confidence := 1%float; slots := s;
                 clarify := {| needed := false; questions := [] |} |} in
  (match i with
   | create => _handle_create cfg uid temp
   | list_ => _handle_list cfg uid temp
   | delete_ => _handle_delete cfg uid temp
   | unknown => ret tt
   end w).1 = Ok tt
  \/ (match i with
      | create => _handle_create cfg uid temp
      | list_ => _handle_list cfg uid temp
      | delete_ => _handle_delete cfg uid temp
      | unknown => ret tt
      end w).1 = Raise TypeError.
Proof.
  intros temp. destruct i.
  - destruct (handle_create_effect cfg uid temp w)
      as (w' & ? & ? & ? & -> & _). auto.
  - destruct (handle_list_effect cfg uid temp w)
      as (w' & ? & ? & ? & -> & _). auto.
  - destruct (handle_delete_effect cfg uid temp w)
      as (res & w' & ? & ? & ? & -> & [-> | ->] & _); auto.
  - auto.
Qed.

(** X19. In a well-formed store whose stored slots are ones that the
    schema accepts, no turn ends in a [KeyError], an [IndexError] or a
    validation error: [handle_message] returns, or raises the
    [TypeError] of a candidate listing. *)
Theorem handle_message_raises_only_type_error (text : string) (w : World) :
  store_wf w ->
  stored_slots_valid w ->
  (handle_message cfg uid text w).1 = Ok tt
  \/ (handle_message cfg uid text w).1 = Raise TypeError.
Proof.
  intros Hw Hvalid.
  destruct (clarification_context w !! uid) as [cd|] eqn:Hcd.
  - pose proof (Hw uid cd Hcd) as Hshape. simpl in Hshape.
    destruct Hshape as [i s qs k Hk | i s | e].
    + destruct (Z_lt_dec (k + 1) (Z.of_nat (length qs))) as [Hlt | Hge].
      * destruct (lookup_lt_is_Some_2 qs (Z.to_nat (k + 1))) as [q Hq];
          [lia|].
        rewrite (advance_turn cfg uid text w i s qs k q Hcd) by
          (assumption || lia).
        auto.
      * rewrite (last_turn cfg uid text w i s qs k Hcd) by lia. auto.
    + remember (handle_message cfg uid text w) as run eqn:Hrun.
      rewrite (pending_turn cfg uid text w _ Hcd) in Hrun.
      unfold _handle_clarification_response in Hrun.
      unfold bind at 1, get_context at 1 in Hrun. unfold bind at 1 in Hrun.
      rewrite Hcd in Hrun. unfold lift at 1, ret at 1 in Hrun.
      cbv beta iota delta
        [default from_option id awaiting_confirmation
         cd_waiting_delete_confirmation cd_waiting_confirmation cd_slots
         cd_intent] in Hrun.
      destruct (PyStr.in_list _ affirmative).
      * destruct (Hvalid uid _ Hcd s eq_refl) as [Hv1 Hv2].
        unfold bind, lift, ret in Hrun. rewrite Hv1, Hv2 in Hrun.
        cbn [andb] in Hrun.
        rewrite (del_context_present uid w _ Hcd) in Hrun.
        rewrite Hrun. exact (confirmed_result i s (drop_entry uid w)).
      * destruct (PyStr.in_list _ negative); [|rewrite Hrun; auto].
        unfold bind in Hrun.
        rewrite (del_context_present uid w _ Hcd) in Hrun.
        rewrite Hrun. auto.
    + remember (handle_message cfg uid text w) as run eqn:Hrun.
      rewrite (pending_turn cfg uid text w _ Hcd) in Hrun.
      unfold _handle_clarification_response in Hrun.
      unfold bind at 1, get_context at 1 in Hrun. unfold bind at 1 in Hrun.
      rewrite Hcd in Hrun. unfold lift at 1, ret at 1 in Hrun.
      cbv beta iota delta
        [default from_option id awaiting_delete_confirmation
         cd_waiting_delete_confirmation cd_event_id] in Hrun.
      destruct (PyStr.in_list _ affirmative).
      * destruct (PyStr.truthy_opt e).
        -- unfold bind in Hrun. rewrite delete_event_shape in Hrun.
           destruct (bool_decide _);
             unfold reply_text, del_context, bind, get_context in Hrun;
             simpl in Hrun; rewrite Hcd in Hrun; rewrite Hrun; auto.
        -- unfold bind, ret in Hrun.
           rewrite (del_context_present uid w _ Hcd) in Hrun.
           rewrite Hrun. auto.
      * destruct (PyStr.in_list _ negative); [|rewrite Hrun; auto].
        unfold bind in Hrun.
        rewrite (del_context_present uid w _ Hcd) in Hrun.
        rewrite Hrun. auto.
  - remember (handle_message cfg uid text w) as run eqn:Hrun.
    unfold handle_message, bind at 1, get_context at 1 in Hrun.
    rewrite Hcd in Hrun. unfold evaluate_fresh, bind, llm_parse in Hrun.
    destruct (parse_user_message (llm w) (str_strip text)) as [[r|] l'];
      rewrite Hrun; [apply process_result | auto].
Qed.

End Exceptions.

(** ** The commands *)

Section CommandProperties.
Context `{PyLib} `{CalendarService} `{LLMService} `{TelegramLib}.
Variable cfg : Config.
Variable uid : Z.

Import CalendarClient MessageHandler Commands.



End CommandProperties.

(** ** Slots that passed the schema *)

Section Validated.
Context `{PyLib} `{CalendarService} `{LLMService}.
Variable cfg : Config.

Import CalendarClient MessageHandler.



End Validated.

(** ** The JSON text taken from an answer of the model *)

Section Extraction.
Context `{PyLib} `{JsonLib}.

Import LLMClient.

Lemma closing_brace_depth (text : string) :
  forall (c : Z) (i j : nat),
    closing_brace c i text = Some j ->
    exists n,
      j = (i + n)%nat /\ c + brace_depth (substring 0 (S n) text) = 0.
Proof.
  induction text as [|a rest IH]; intros c i j; simpl; [discriminate|].
  destruct (Ascii.eqb a "{") eqn:Ho; [|destruct (Ascii.eqb a "}") eqn:Hc].
  - intros Hj. destruct (IH _ _ _ Hj) as (n & -> & Hd).
    exists (S n). split; [lia|]. cbn [substring brace_depth].
    lia.
  - destruct (c - 1 =? 0) eqn:Hz.
    + intros [= <-]. exists 0%nat. split; [lia|].
      apply Z.eqb_eq in Hz. cbn [substring brace_depth].
      destruct rest; simpl; lia.
    + intros Hj. destruct (IH _ _ _ Hj) as (n & -> & Hd).
      exists (S n). split; [lia|]. cbn [substring brace_depth].
      lia.
  - intros Hj. destruct (IH _ _ _ Hj) as (n & -> & Hd).
    exists (S n). split; [lia|]. cbn [substring brace_depth].
    lia.
Qed.

Lemma substring_prefix (text : string) (n : nat) :
  String.prefix (substring 0 n text) text = true.
Proof.
  revert n. induction text as [|a rest IH]; intros [|n]; simpl;
    try reflexivity.
  destruct (ascii_dec a a); [apply IH | contradiction].
Qed.

Lemma from_braces_accepted (text json_str : string) :
  from_braces text = Some json_str -> json_loads_ok json_str = true.
Proof.
  unfold from_braces.
  destruct (String.prefix "{" text); [|discriminate].
  destruct (closing_brace 0 0 text) as [j|]; [|discriminate].
  destruct (0 <? j)%nat; [|discriminate].
  destruct (json_loads_ok _) eqn:Hok; [|discriminate].
  intros [= <-]. exact Hok.
Qed.

(** X24. The text taken by the first attempt opens with the first brace
    of the answer and stops at the brace that brings the count back to
    zero: it is a prefix of the answer with as many closing braces as
    opening ones, and [json.loads] accepts it. *)
Theorem braces_attempt_returns_balanced_prefix (text json_str : string) :
  from_braces text = Some json_str ->
  String.prefix json_str text = true
  /\ brace_depth json_str = 0
  /\ json_loads_ok json_str = true.
Proof.
  unfold from_braces.
  destruct (String.prefix "{" text); [|discriminate].
  destruct (closing_brace 0 0 text) as [j|] eqn:Hj; [|discriminate].
  destruct (0 <? j)%nat; [|discriminate].
  destruct (json_loads_ok _) eqn:Hok; [|discriminate].
  intros [= <-].
  destruct (closing_brace_depth text 0 0 j Hj) as (n & -> & Hd).
  replace (0 + n + 1)%nat with (S n) in * by lia.
  split; [apply substring_prefix|]. split; [lia | exact Hok].
Qed.

Lemma first_object_sound (parts : list string) (s : string) :
  first_object parts = Some s -> json_loads_ok s = true.
Proof.
  induction parts as [|p rest IH]; simpl; [discriminate|].
  destruct (String.prefix "{" (str_strip p) && endswith "}" (str_strip p));
    [|exact IH].
  destruct (json_loads_ok (str_strip p)) eqn:Hok; [|exact IH].
  intros [= <-]. exact Hok.
Qed.

(** X25. Only the [```json] fence is trusted unread: every text that
    [_extract_json] returns has been accepted by [json.loads], unless
    the answer holds a [```json] fence. *)
Theorem extracted_text_is_json_or_fenced (text s : string) :
  _extract_json text = Some s ->
  json_loads_ok s = true
  \/ PyStr.contains "```json" (str_strip text) = true.
Proof.
  unfold _extract_json.
  destruct (from_braces (str_strip text)) as [b|] eqn:Hb.
  { intros [= <-]. left. exact (from_braces_accepted _ _ Hb). }
  destruct (from_json_fence (str_strip text)) as [f|] eqn:Hf.
  { intros _. right. unfold from_json_fence in Hf.
    destruct (PyStr.contains "```json" (str_strip text));
      [reflexivity | discriminate]. }
  destruct (from_fence (str_strip text)) as [p|] eqn:Hp.
  { intros [= <-]. left. unfold from_fence in Hp.
    destruct (PyStr.contains "```" (str_strip text)); [|discriminate].
    exact (first_object_sound _ _ Hp). }
  destruct (json_loads_ok (str_strip text)) eqn:Hok; [|discriminate].
  intros [= <-]. left. exact Hok.
Qed.

(** X26. An answer that is JSON as a whole is never lost: when
    [json.loads] accepts the stripped answer, [_extract_json] returns a
    text; and it returns [None] only for an answer that [json.loads]
    rejects. *)
Theorem valid_answer_is_never_lost (text : string) :
  (json_loads_ok (str_strip text) = true ->
   is_Some (_extract_json text))
  /\ (_extract_json text = None ->
      json_loads_ok (str_strip text) = false).
Proof.
  unfold _extract_json.
  destruct (from_braces (str_strip text)),
    (from_json_fence (str_strip text)), (from_fence (str_strip text));
    try (split; [eauto | discriminate]).
  destruct (json_loads_ok (str_strip text));
    split; eauto; discriminate.
Qed.

End Extraction.

(** ** The listing of a day *)

Section Listing.
Context `{PyLib} `{CalendarService} `{LLMService}.
Variable cfg : Config.

Import CalendarClient MessageHandler.

Lemma list_lines_show (ev : Event) (evs : list Event) :
  In ev evs ->
  forall i,
    PyStr.contains (default "Без названия" (ev_summary ev))
      (list_lines i evs) = true.
Proof.
  induction evs as [|e rest IH]; intros Hin i; [destruct Hin|].
  simpl. destruct Hin as [-> | Hin].
  - apply contains_append_l. unfold list_line.
    do 4 apply contains_append_r. apply contains_here.
  - apply contains_append_r. apply IH, Hin.
Qed.

(** X27. When the day has events, the one message that [_handle_list]
    sends shows every one of them: each event returned by the client
    appears in it under its summary, or as "Без названия" when it has
    none. *)
Theorem listing_shows_every_event
    (uid : Z) (r : LLMResponseModel) (d : string) (w w1 : World)
    (evs : list Event) (ev : Event) :
  target_date_of (slots r) = Some d ->
  PyStr.truthy d = true ->
  list_events cfg d w = (Ok evs, w1) ->
  In ev evs ->
  exists w' m,
    _handle_list cfg uid r w = (Ok tt, w')
    /\ outbox w' = outbox w1 ++ [(uid, m)]
    /\ PyStr.contains (default "Без названия" (ev_summary ev)) m = true.
Proof.
  intros Hd Ht Hlist Hin. unfold _handle_list. rewrite Hd, Ht.
  unfold bind. rewrite Hlist.
  destruct evs as [|e rest]; [destruct Hin|].
  eexists _, _. split; [reflexivity|]. split; [reflexivity|].
  do 5 apply contains_append_r. apply list_lines_show, Hin.
Qed.

End Listing.

(** ** The statements at concrete inputs, continued *)

Section MoreScenarios.
#[local] Existing Instances Fixture.py Fixture.calendar Fixture.model
  assignable_text.
Import CalendarClient MessageHandler Commands.

(** A start written in words is not sent to the calendar. *)
Lemma create_event_unreadable_start_witness :
  let w := Fixture.boot [] [] in
  exists w',
    create_event Config_default "Встреча" "завтра в три" None None None
      None w = (Ok None, w')
    /\ api_requests w' = []
    /\ cal w' = [].
Proof.
  intros w.
  destruct (create_event_unreadable_start_sends_nothing Config_default
              "Встреча" "завтра в три" None None None None w ValueError)
    as (w' & Hrun & _ & Ha & Hc & _); [vm_compute; reflexivity|].
  exists w'. auto.
Defined.

(** A meeting with two addresses: both are sent as attendees and the
    description goes out as given. *)
Lemma attendees_are_the_addresses_witness :
  let w := Fixture.boot [] [] in
  exists r w' body,
    create_event Config_default "Встреча" moscow_3pm None
      (Some "Обсуждение") None
      (Some ["anna@example.com"; "ivan@example.com"]) w = (Ok r, w')
    /\ api_requests w' = [ApiInsert body]
    /\ body_attendees body = Some ["anna@example.com"; "ivan@example.com"]
    /\ body_description body = Some "Обсуждение".
Proof.
  intros w.
  destruct (attendees_are_the_addresses Config_default "Встреча"
              moscow_3pm None (Some "Обсуждение") None
              (Some ["anna@example.com"; "ivan@example.com"]) w
              at_3pm at_4pm eq_refl eq_refl)
    as (r & w' & body & Hrun & Hreq & Hatt & Hdesc).
  exists r, w', body. split; [exact Hrun|]. split; [exact Hreq|].
  split; [rewrite Hatt; vm_compute; reflexivity|].
  rewrite Hdesc; [reflexivity | repeat constructor].
Defined.

(** The date "27 ноября" is answered as a day without events. *)
Lemma unreadable_date_lists_as_empty_day_witness :
  let s := {| title := None; start := None; end_ := None;
              date := Some "27 ноября"; participants := None;
              description := None; location := None; event_id := None |} in
  let w := Fixture.boot [vadim] [] in
  exists w',
    _handle_list Config_default 1 (result list_ 1%float s) w = (Ok tt, w')
    /\ outbox w' = [(1, "📅 На 27 ноября нет запланированных событий.")]
    /\ api_requests w' = [].
Proof.
  intros s w.
  destruct (unreadable_date_lists_as_empty_day Config_default 1
              (result list_ 1%float s) "27 ноября" w)
    as (w' & Hrun & Ho & _ & Ha);
    [reflexivity | reflexivity | vm_compute; reflexivity|].
  exists w'. auto.
Defined.

(** At noon of 27 November a delete by title without a date searches
    that day. *)
Lemma delete_by_title_without_date_witness :
  let s := {| title := Some "встреча"; start := None; end_ := None;
              date := None; participants := None; description := None;
              location := None; event_id := None |} in
  let w := Fixture.boot [vadim] [] in
  client_calls (_handle_delete Config_default 1 (result delete_ 1%float s)
                  w).2
  = [FindEvents "встреча" "2025-11-27"; ListEvents "2025-11-27"].
Proof.
  intros s w.
  rewrite (delete_by_title_without_date_searches_today Config_default 1
             (result delete_ 1%float s) "встреча" w
             eq_refl eq_refl eq_refl eq_refl).
  vm_compute. reflexivity.
Defined.

(** No event of the day is called "обед". *)
Lemma delete_by_title_without_match_witness :
  let w := Fixture.boot [vadim] [] in
  let r := result delete_ 1%float (by_title "обед") in
  exists w',
    _handle_delete Config_default 1 r w = (Ok tt, w')
    /\ outbox w'
       = [(1, "Не найдено событий с названием 'обед' на 27.11.2025.")]
    /\ clarification_context w' !! 1 = None
    /\ client_calls w'
       = [FindEvents "обед" "2025-11-27"; ListEvents "2025-11-27"].
Proof.
  intros w r.
  destruct (delete_by_title_without_match_reports_not_found Config_default
              1 r w
              (find_events_by_title_and_date Config_default "обед"
                 "2025-11-27" w).2
              "обед" "2025-11-27")
    as (w' & Hrun & Hout & Hst & Hc);
    [reflexivity | reflexivity | reflexivity | reflexivity
    | assert (E : (find_events_by_title_and_date Config_default "обед"
                     "2025-11-27" w).1 = Ok [])
        by (vm_compute; reflexivity);
      rewrite <- E; apply surjective_pairing |].
  exists w'. split; [exact Hrun|].
  split; [rewrite Hout; vm_compute; reflexivity|].
  split; [rewrite Hst; reflexivity | exact Hc].
Defined.

(** Users 1 and 2 write; user 3, who is waiting for a confirmation,
    keeps it and receives nothing. *)
Lemma silent_user_is_left_alone_witness :
  let w := pending 3 (awaiting_confirmation create meeting_slots) [] in
  let updates := [(1, TextMessage "привет"); (2, StartCommand);
                  (1, DeleteCommand "/delete evt0a1b2c3d4e5")] in
  (serve Config_default updates w).1 = Ok tt
  /\ clarification_context (serve Config_default updates w).2 !! 3
     = Some (awaiting_confirmation create meeting_slots).
Proof.
  intros w updates.
  destruct (silent_user_is_left_alone Config_default 3 updates w)
    as (Hres & Hst & _);
    [repeat constructor; simpl; lia|].
  split; [exact Hres|]. rewrite Hst. reflexivity.
Defined.

(** From the start of the process, after four updates. *)
Lemma store_stays_well_formed_witness :
  store_wf
    (serve Config_default
       [(1, TextMessage "встреча"); (1, TextMessage "Планёрка");
        (2, ViewCommand "/view"); (1, TextMessage "в три")]
       (Fixture.boot []
          [Some (ask create 1%float SlotsModel_default
                   ["Как назвать событие?"; "Во сколько?"])])).2.
Proof.
  apply store_stays_well_formed. apply map_Forall_empty.
Defined.

(** A new request sent while a confirmation is pending does not reach
    the model. *)
Lemma pending_reply_is_not_parsed_witness :
  let w := {| clarification_context :=
                {[1 := awaiting_confirmation create meeting_slots]};
              cal := []; llm := [Some (result list_ 1%float meeting_slots)];
              clock := Fixture.noon; outbox := []; client_calls := [];
              api_requests := [] |} in
  llm (handle_message Config_default 1 "покажи события на завтра" w).2
  = [Some (result list_ 1%float meeting_slots)].
Proof.
  intros w.
  exact (pending_reply_is_not_parsed Config_default 1
           "покажи события на завтра" w
           (awaiting_confirmation create meeting_slots) eq_refl).
Defined.

(** "Нет" keeps the event. *)
Lemma negative_reply_cancels_witness :
  let cd := awaiting_delete_confirmation (Some "evt0a1b2c3d4e5") in
  let w := pending 1 cd [vadim] in
  let run := handle_message Config_default 1 " Нет" w in
  run.1 = Ok tt
  /\ outbox run.2 = [(1, "Хорошо, событие не будет удалено.")]
  /\ clarification_context run.2 !! 1 = None
  /\ cal run.2 = [vadim]
  /\ client_calls run.2 = [].
Proof.
  intros cd w run. unfold run.
  rewrite (negative_reply_cancels Config_default 1 " Нет" w cd eq_refl
             (or_introl eq_refl) eq_refl).
  repeat split.
Defined.


(** "да" to a guessed listing lists the day; with a stored start that
    the schema rejects, "да" ends in the validation error and the
    state stays. *)
Lemma confirmed_intent_is_dispatched_witness :
  let w := pending 1 (awaiting_confirmation list_ (by_title "встреча"))
             [vadim] in
  let odd := {| title := Some "Встреча"; start := Some "завтра";
                end_ := None; date := None; participants := None;
                description := None; location := None;
                event_id := None |} in
  let w2 := pending 1 (awaiting_confirmation create odd) [] in
  handle_message Config_default 1 "да" w
  = dispatch Config_default 1 (confirmed list_ (by_title "встреча"))
      (drop_entry 1 w)
  /\ client_calls (handle_message Config_default 1 "да" w).2
     = [ListEvents "2025-11-27"]
  /\ handle_message Config_default 1 "да" w2 = (Raise ValueError, w2).
Proof.
  intros w odd w2.
  destruct (proj1 (confirmed_intent_is_dispatched Config_default 1 "да" w
                     list_ (by_title "встреча") eq_refl eq_refl))
    as [Heq _];
    [split; reflexivity | discriminate|].
  split; [exact Heq|]. split; [vm_compute; reflexivity|].
  apply (proj2 (confirmed_intent_is_dispatched Config_default 1 "да" w2
                  create odd eq_refl eq_refl)).
  intros [Hbad _]. vm_compute in Hbad. discriminate.
Defined.

(** The match that was found had no identifier. *)
Lemma confirmed_delete_without_id_witness :
  let w := pending 1 (awaiting_delete_confirmation None) [vadim] in
  let run := handle_message Config_default 1 "да" w in
  run.1 = Ok tt
  /\ outbox run.2 = []
  /\ client_calls run.2 = []
  /\ clarification_context run.2 !! 1 = None.
Proof.
  intros w run. unfold run.
  rewrite (confirmed_delete_without_id_is_silent Config_default 1 "да" w
             None eq_refl eq_refl eq_refl).
  repeat split.
Defined.

(** The answer to the first of two questions, be it a title or a
    question back. *)
Lemma answer_moves_to_next_question_witness :
  let qs := ["Как назвать событие?"; "Во сколько?"] in
  let w := pending 1 (awaiting_clarification create SlotsModel_default qs 0)
             [] in
  let w' := (reply_text 1 "Во сколько?"
               (put 1 (awaiting_clarification create SlotsModel_default
                         qs 1) w)).2 in
  handle_message Config_default 1 "Планёрка" w = (Ok tt, w')
  /\ handle_message Config_default 1 "зачем?" w = (Ok tt, w').
Proof.
  intros qs w w'.
  destruct (answer_moves_to_next_question Config_default 1 w create
              SlotsModel_default qs 0 eq_refl)
    as (q & Hq & Hturn); [lia | simpl; lia|].
  injection Hq as <-. split; apply Hturn.
Defined.

(** A request, two questions, two answers. *)
Lemma clarification_dialogue_witness :
  let qs := ["Как назвать событие?"; "Во сколько?"] in
  let r := ask create 1%float SlotsModel_default qs in
  let w := Fixture.boot [] [Some r] in
  exists w',
    converse Config_default 1 ["встреча"; "Планёрка"; "в три"] w
    = (Ok tt, w')
    /\ outbox w'
       = [(1, "Как назвать событие?"); (1, "Во сколько?");
          (1, "Спасибо за уточнения. Обрабатываю ваш запрос...");
          (1, "Пожалуйста, повторите ваш запрос с учетом уточнений.")]
    /\ clarification_context w' !! 1 = None
    /\ client_calls w' = [].
Proof.
  intros qs r w.
  destruct (clarification_dialogue_ends_without_action Config_default 1
              "встреча" ["Планёрка"; "в три"] w r
              "Как назвать событие?" ["Во сколько?"] []
              eq_refl eq_refl eq_refl eq_refl eq_refl)
    as (w' & Hrun & Hout & Hst & _ & (_ & Hc & _)).
  exists w'. split; [exact Hrun|]. split; [exact Hout|].
  split; [rewrite Hst; reflexivity | exact Hc].
Defined.


(** Two matches, the second without an identifier. *)
Lemma several_matches_with_missing_id_witness :
  let nameless :=
    {| ev_id := None; ev_summary := Some "Встреча без номера";
       ev_start := Some {| dateTime := Some "2025-11-27T10:00:00+03:00";
                           date_ := None;
                           timeZone := Some "Europe/Moscow" |};
       ev_end := None; ev_htmlLink := None |} in
  let w := Fixture.boot [vadim; nameless] [] in
  let r := result delete_ 1%float (by_title "встреча") in
  (_handle_delete Config_default 1 r w).1 = Raise TypeError
  /\ outbox (_handle_delete Config_default 1 r w).2 = [].
Proof.
  intros nameless w r.
  destruct (several_matches_with_missing_id_raise Config_default 1 r w
              (find_events_by_title_and_date Config_default "встреча"
                 "2025-11-27" w).2
              "встреча" "2025-11-27" [vadim; nameless])
    as (Hrun & Hout & _);
    [reflexivity | reflexivity | reflexivity | reflexivity
    | assert (E : (find_events_by_title_and_date Config_default "встреча"
                     "2025-11-27" w).1 = Ok [vadim; nameless])
        by (vm_compute; reflexivity);
      rewrite <- E; apply surjective_pairing
    | simpl; lia
    | apply Exists_cons_tl, Exists_cons_hd; reflexivity |].
  rewrite Hrun. split; [reflexivity | exact Hout].
Defined.

(** "да" to a guessed delete by title, with two matches in the
    calendar. *)
Lemma handle_message_raises_only_type_error_witness :
  let w := pending 1 (awaiting_confirmation delete_ (by_title "встреча"))
             [vadim; anna] in
  store_wf w
  /\ stored_slots_valid w
  /\ ((handle_message Config_default 1 "да" w).1 = Ok tt
      \/ (handle_message Config_default 1 "да" w).1 = Raise TypeError).
Proof.
  intros w.
  assert (Hw : store_wf w).
  { apply map_Forall_singleton. constructor. }
  assert (Hv : stored_slots_valid w).
  { apply map_Forall_singleton. intros s [= <-]. split; reflexivity. }
  split; [exact Hw|]. split; [exact Hv|].
  exact (handle_message_raises_only_type_error Config_default 1 "да" w
           Hw Hv).
Defined.





(** The two meetings of 27 November. *)
Lemma listing_shows_every_event_witness :
  let w := Fixture.boot [vadim; anna] [] in
  let r := result list_ 1%float (by_title "встреча") in
  exists w' m,
    _handle_list Config_default 1 r w = (Ok tt, w')
    /\ outbox w' = [(1, m)]
    /\ PyStr.contains "Встреча с Анной" m = true.
Proof.
  intros w r.
  destruct (listing_shows_every_event Config_default 1 r "2025-11-27" w
              (list_events Config_default "2025-11-27" w).2
              [vadim; anna] anna)
    as (w' & m & Hrun & Hout & Hshown);
    [reflexivity | reflexivity
    | assert (E : (list_events Config_default "2025-11-27" w).1
                  = Ok [vadim; anna]) by (vm_compute; reflexivity);
      rewrite <- E; apply surjective_pairing
    | right; left; reflexivity |].
  exists w', m. split; [exact Hrun|]. split; [|exact Hshown].
  rewrite Hout. f_equal.
Defined.

End MoreScenarios.

Section OfflineScenario.
#[local] Existing Instances Fixture.py offline Fixture.model.
Import CalendarClient MessageHandler.

(** With the service out of reach, the listing of 27 November reads
    as a day without events. *)
Lemma failed_listing_reads_as_empty_day_witness :
  let w := {| clarification_context := ∅; cal := tt; llm := [];
              clock := Fixture.noon; outbox := []; client_calls := [];
              api_requests := [] |} in
  let s := {| title := None; start := None; end_ := None;
              date := Some "2025-11-27"; participants := None;
              description := None; location := None; event_id := None |} in
  let r := {| intent := list_; confidence := 1%float; slots := s;
              clarify := {| needed := false; questions := [] |} |} in
  exists w',
    _handle_list Config_default 1 r w = (Ok tt, w')
    /\ outbox w' = [(1, "📅 На 27.11.2025 нет запланированных событий.")].
Proof.
  intros w s r.
  destruct (failed_listing_reads_as_empty_day Config_default 1 r
              "2025-11-27" w)
    as (w' & Hrun & Hout);
    [reflexivity | reflexivity | intros a b; reflexivity|].
  exists w'. split; [exact Hrun|]. rewrite Hout. vm_compute. reflexivity.
Defined.

End OfflineScenario.

Section ExtractionScenario.
#[local] Existing Instances Fixture.py flat_json.
Import LLMClient.

(** An object followed by a remark: the object is taken. *)
Lemma braces_attempt_witness :
  from_braces (intent_object "list" +:+ " Готово.")
  = Some (intent_object "list")
  /\ String.prefix (intent_object "list")
       (intent_object "list" +:+ " Готово.") = true
  /\ brace_depth (intent_object "list") = 0.
Proof.
  destruct (braces_attempt_returns_balanced_prefix
              (intent_object "list" +:+ " Готово.") (intent_object "list"))
    as (Hp & Hd & _); [vm_compute; reflexivity|].
  split; [vm_compute; reflexivity|]. split; [exact Hp | exact Hd].
Defined.

(** An object between plain fences. *)
Lemma extracted_text_witness :
  let answer := "Ответ: ``` " +:+ intent_object "list" +:+ " ``` " in
  _extract_json answer = Some (intent_object "list")
  /\ (json_loads_ok (intent_object "list") = true
      \/ PyStr.contains "```json" (str_strip answer) = true).
Proof.
  intros answer.
  split; [vm_compute; reflexivity|].
  apply (extracted_text_is_json_or_fenced answer).
  vm_compute. reflexivity.
Defined.

(** An object with blanks around it is returned; a greeting is not. *)
Lemma valid_answer_witness :
  is_Some (_extract_json ("  " +:+ intent_object "unknown" +:+ "  "))
  /\ json_loads_ok (str_strip "привет") = false.
Proof.
  split.
  - apply (proj1 (valid_answer_is_never_lost
                    ("  " +:+ intent_object "unknown" +:+ "  "))).
    vm_compute. reflexivity.
  - apply (proj2 (valid_answer_is_never_lost "привет")).
    vm_compute. reflexivity.
Defined.

End ExtractionScenario.
